(** Verification of the loan risk decision engine of
    enhanced-loan-default-prediction: the feature engineering, the risk
    policy and the batch endpoint of [enhanced_api.py], embedded with the
    fragment of pandas and of IEEE binary64 arithmetic they rely on; then
    its other endpoints, the first service [predict_api/app.py], and the
    feature, validation and model selection code of [train.py],
    [feature_analysis.py], [final_validation.py] and [advanced_train.py].

    Python floats are Rocq's primitive binary64 floats, so that division by
    zero, NaN and the exact value of literals such as [0.8] are those of
    the running program.  Python ints are [Z]; the int64 columns of a frame
    are assumed to stay within the int64 range. *)

From Stdlib Require Import ZArith List Bool String Ascii Floats Lia Permutation.
Import ListNotations.
Local Open Scope string_scope.
Local Open Scope Z_scope.
Set Warnings "-inexact-float".

(** * IEEE binary64 *)
Module Float64.

(** An int64 converted to float64, as numpy does before a true division or
    a comparison with a float. *)
Definition of_Z (z : Z) : float :=
  match z with
  | Z0 => PrimFloat.zero
  | Zpos _ => PrimFloat.of_uint63 (Uint63.of_Z z)
  | Zneg p => PrimFloat.opp (PrimFloat.of_uint63 (Uint63.of_Z (Zpos p)))
  end.

(** The position of a number on the extended real line, as a triple that
    is ordered lexicographically: class, exponent, mantissa.  NaN has no
    position. *)
Definition key (x : spec_float) : option (Z * Z * Z) :=
  match x with
  | S754_nan => None
  | S754_infinity s => Some (if s then -2 else 2, 0, 0)
  | S754_zero _ => Some (0, 0, 0)
  | S754_finite s m e => Some (if s then (-1, - e, Zneg m) else (1, e, Zpos m))
  end.

Definition lex_compare (a b : Z * Z * Z) : comparison :=
  let '(a1, a2, a3) := a in
  let '(b1, b2, b3) := b in
  match a1 ?= b1 with
  | Eq => match a2 ?= b2 with Eq => a3 ?= b3 | c => c end
  | c => c
  end.

Definition lex_lt (a b : Z * Z * Z) : Prop :=
  let '(a1, a2, a3) := a in
  let '(b1, b2, b3) := b in
  a1 < b1 \/ (a1 = b1 /\ (a2 < b2 \/ (a2 = b2 /\ a3 < b3))).

Definition lex_eq (a b : Z * Z * Z) : Prop :=
  let '(a1, a2, a3) := a in
  let '(b1, b2, b3) := b in
  a1 = b1 /\ a2 = b2 /\ a3 = b3.

(** [lt x y], [le x y] and [eq x y] are the relations that [<?], [<=?] and
    [=?] decide: both operands are numbers and their positions are
    ordered, or the same. *)
Definition lt (x y : float) : Prop :=
  match key (Prim2SF x), key (Prim2SF y) with
  | Some a, Some b => lex_lt a b
  | _, _ => False
  end.

Definition le (x y : float) : Prop :=
  match key (Prim2SF x), key (Prim2SF y) with
  | Some a, Some b => lex_eq a b \/ lex_lt a b
  | _, _ => False
  end.

Definition eq (x y : float) : Prop :=
  match key (Prim2SF x), key (Prim2SF y) with
  | Some a, Some b => lex_eq a b
  | _, _ => False
  end.

End Float64.

(** * Python values: exceptions and results *)

Inductive exn : Type :=
| KeyError (key : string)
| TypeError (msg : string)
| ValueError (msg : string)
| IndexError (msg : string)
| ModelError (msg : string)
| HTTPException (status_code : Z) (detail : string).

Inductive result (A : Type) : Type :=
| Ok (a : A)
| Raise (e : exn).
Arguments Ok {A} a.
Arguments Raise {A} e.

Definition bind {A B} (r : result A) (k : A -> result B) : result B :=
  match r with
  | Ok a => k a
  | Raise e => Raise e
  end.

Notation "'let*' x ':=' r 'in' k" := (bind r (fun x => k))
  (at level 10, x pattern, r at level 100, k at level 200).

(** [try: body except Exception as e: handler e] *)
Definition try_except {A} (body : result A) (handler : exn -> result A)
  : result A :=
  match body with
  | Ok a => Ok a
  | Raise e => handler e
  end.

Definition b2z (b : bool) : Z := if b then 1 else 0.

Fixpoint zip_with {A B C} (f : A -> B -> C) (l : list A) (l' : list B)
  : list C :=
  match l, l' with
  | a :: t, b :: t' => f a b :: zip_with f t t'
  | _, _ => []
  end.

(** * The fragment of pandas that the feature engineering uses *)
Module pd.

(** A column with its dtype: int64, float64, bool, object (strings) and
    category (a label, or missing). *)
Inductive Series : Type :=
| SInt (l : list Z)
| SFloat (l : list float)
| SBool (l : list bool)
| SStr (l : list string)
| SCat (l : list (option string)).

(** A Python scalar operand: [2], [750], or the float a median returns. *)
Inductive scalar : Type :=
| PyInt (z : Z)
| PyFloat (x : float).

(** One element read out of a column. *)
Inductive cell : Type :=
| CInt (z : Z)
| CFloat (x : float)
| CBool (b : bool)
| CStr (s : string)
| CCat (c : option string).

(** Columns are kept in insertion order, as pandas keeps them. *)
Definition DataFrame : Type := list (string * Series).

Definition len (s : Series) : nat :=
  match s with
  | SInt l => List.length l
  | SFloat l => List.length l
  | SBool l => List.length l
  | SStr l => List.length l
  | SCat l => List.length l
  end.

(** [df[c]] *)
Fixpoint getitem (df : DataFrame) (c : string) : result Series :=
  match df with
  | [] => Raise (KeyError c)
  | (k, s) :: df' => if String.eqb k c then Ok s else getitem df' c
  end.

(** [df[c] = s]: replaces the column named [c], or appends a new one. *)
Fixpoint setitem (df : DataFrame) (c : string) (s : Series) : DataFrame :=
  match df with
  | [] => [(c, s)]
  | (k, s0) :: df' =>
      if String.eqb k c then (k, s) :: df' else (k, s0) :: setitem df' c s
  end.

(** [df[[c1; ...; cn]]] *)
Fixpoint getitems (df : DataFrame) (cs : list string) : result DataFrame :=
  match cs with
  | [] => Ok []
  | c :: cs' =>
      let* s := getitem df c in
      let* rest := getitems df cs' in
      Ok ((c, s) :: rest)
  end.

(** [s.iloc[i]] *)
Definition iloc (s : Series) (i : nat) : result cell :=
  let oob := Raise (IndexError "single positional indexer is out-of-bounds") in
  match s with
  | SInt l => match nth_error l i with Some v => Ok (CInt v) | None => oob end
  | SFloat l => match nth_error l i with Some v => Ok (CFloat v) | None => oob end
  | SBool l => match nth_error l i with Some v => Ok (CBool v) | None => oob end
  | SStr l => match nth_error l i with Some v => Ok (CStr v) | None => oob end
  | SCat l => match nth_error l i with Some v => Ok (CCat v) | None => oob end
  end.

(** [df[c].iloc[i]] *)
Definition at_row (df : DataFrame) (c : string) (i : nat) : result cell :=
  let* s := getitem df c in
  iloc s i.

(** [df.iloc[i]]: row [i], one named value per column. *)
Fixpoint row (df : DataFrame) (i : nat) : result (list (string * cell)) :=
  match df with
  | [] => Ok []
  | (k, s) :: df' =>
      let* v := iloc s i in
      let* r := row df' i in
      Ok ((k, v) :: r)
  end.

(** Numeric columns seen as float64, the conversion numpy applies before a
    true division or a comparison with a float. *)
Definition as_float64 (s : Series) : result (list float) :=
  match s with
  | SInt l => Ok (map Float64.of_Z l)
  | SFloat l => Ok l
  | SBool l => Ok (map (fun b => Float64.of_Z (b2z b)) l)
  | SStr _ | SCat _ => Raise (TypeError "unsupported operand type(s)")
  end.

Definition scalar_float64 (k : scalar) : float :=
  match k with
  | PyInt z => Float64.of_Z z
  | PyFloat x => x
  end.

(** [a / b], element by element.  Division by zero raises nothing: IEEE
    division yields an infinity or NaN. *)
Definition truediv (a b : Series) : result Series :=
  let* x := as_float64 a in
  let* y := as_float64 b in
  Ok (SFloat (zip_with PrimFloat.div x y)).

(** [a / k] for a scalar [k]. *)
Definition truediv_scalar (a : Series) (k : scalar) : result Series :=
  let* x := as_float64 a in
  Ok (SFloat (map (fun v => v / scalar_float64 k)%float x)).

(** [s < k]: int64 against a Python int is compared on integers, every
    other numeric pairing on float64. *)
Definition lt (s : Series) (k : scalar) : result Series :=
  match s, k with
  | SInt l, PyInt z => Ok (SBool (map (fun v => v <? z) l))
  | _, _ =>
      let* x := as_float64 s in
      Ok (SBool (map (fun v => v <? scalar_float64 k)%float x))
  end.

(** [s > k] *)
Definition gt (s : Series) (k : scalar) : result Series :=
  match s, k with
  | SInt l, PyInt z => Ok (SBool (map (fun v => z <? v) l))
  | _, _ =>
      let* x := as_float64 s in
      Ok (SBool (map (fun v => scalar_float64 k <? v)%float x))
  end.

(** [s.astype(int)] for the boolean masks the code converts. *)
Definition astype_int (s : Series) : result Series :=
  match s with
  | SBool l => Ok (SInt (map b2z l))
  | SInt l => Ok (SInt l)
  | _ => Raise (TypeError "astype(int): dtype outside the modelled fragment")
  end.

Fixpoint insert_sorted (x : float) (l : list float) : list float :=
  match l with
  | [] => [x]
  | y :: l' => if (x <=? y)%float then x :: l else y :: insert_sorted x l'
  end.

Definition sort (l : list float) : list float :=
  fold_right insert_sorted [] l.

(** The median of a float64 array, missing values skipped: the middle
    element of the sorted values, the mean of the two middle ones for an
    even count, NaN when nothing is left. *)
Definition nanmedian (l : list float) : float :=
  let v := sort (filter (fun x => negb (PrimFloat.is_nan x)) l) in
  let n := List.length v in
  match n with
  | O => PrimFloat.nan
  | _ =>
      if Nat.odd n then nth (Nat.div2 n) v PrimFloat.nan
      else ((nth (Nat.div2 n - 1) v PrimFloat.nan
             + nth (Nat.div2 n) v PrimFloat.nan) / 2)%float
  end.

(** [s.median()] *)
Definition median (s : Series) : result float :=
  match s with
  | SStr _ | SCat _ => Raise (TypeError "could not convert string to float")
  | _ => let* x := as_float64 s in Ok (nanmedian x)
  end.

(** [bins.searchsorted(x, side="left")]: the number of edges strictly
    below [x]; a NaN sorts after every edge. *)
Definition searchsorted_left (bins : list float) (x : float) : nat :=
  if PrimFloat.is_nan x then List.length bins
  else List.length (filter (fun b => (b <? x)%float) bins).

(** One value through [pd.cut(_, bins, labels=labels, right=True,
    include_lowest=_)]: bin [i] (1-based) is [(bins[i-1], bins[i]]]; with
    [include_lowest] a value equal to the first edge goes in bin 1; a
    value in no bin is missing. *)
Definition cut1 (bins : list float) (labels : list string)
    (include_lowest : bool) (x : float) : option string :=
  let ids := searchsorted_left bins x in
  let ids :=
    if include_lowest && (x =? hd PrimFloat.nan bins)%float then 1%nat
    else ids in
  if PrimFloat.is_nan x || Nat.eqb ids (List.length bins) || Nat.eqb ids 0
  then None
  else nth_error labels (ids - 1).

(** [pd.cut(s, bins=bins, labels=labels, include_lowest=include_lowest)] *)
Definition cut (s : Series) (bins : list Z) (labels : list string)
    (include_lowest : bool) : result Series :=
  let* x := as_float64 s in
  Ok (SCat (map (cut1 (map Float64.of_Z bins) labels include_lowest) x)).

(** [df.sum(axis=1)] over integer columns: one sum per row. *)
Fixpoint sum_rows (cols : DataFrame) (acc : list Z) : result (list Z) :=
  match cols with
  | [] => Ok acc
  | (_, SInt l) :: cols' => sum_rows cols' (zip_with Z.add acc l)
  | (_, SBool l) :: cols' => sum_rows cols' (zip_with Z.add acc (map b2z l))
  | _ => Raise (TypeError "sum(axis=1): dtype outside the modelled fragment")
  end.

Definition nrows (df : DataFrame) : nat :=
  match df with
  | [] => O
  | (_, s) :: _ => len s
  end.

Definition sum_axis1 (df : DataFrame) : result Series :=
  let* t := sum_rows df (repeat 0 (nrows df)) in
  Ok (SInt t).

(** [a * b], element by element: int64 with int64 stays int64 (assumed not
    to overflow), any other numeric pairing is multiplied as float64. *)
Definition mul (a b : Series) : result Series :=
  match a, b with
  | SInt x, SInt y => Ok (SInt (zip_with Z.mul x y))
  | _, _ =>
      let* x := as_float64 a in
      let* y := as_float64 b in
      Ok (SFloat (zip_with PrimFloat.mul x y))
  end.

(** [a * k] for a scalar [k]. *)
Definition mul_scalar (a : Series) (k : scalar) : result Series :=
  match a, k with
  | SInt x, PyInt z => Ok (SInt (map (fun v => v * z) x))
  | _, _ =>
      let* x := as_float64 a in
      Ok (SFloat (map (fun v => v * scalar_float64 k)%float x))
  end.

(** [df.drop(columns=[c])] for a column [c] that the frame has. *)
Definition drop (df : DataFrame) (c : string) : DataFrame :=
  filter (fun kv => negb (String.eqb (fst kv) c)) df.

(** [list(df.columns)] *)
Definition columns (df : DataFrame) : list string := map fst df.

End pd.

(** * enhanced_api.py *)

(** The request body of [/predict] (a pydantic model: every field is
    present and has the declared type). *)
Record LoanApplication : Type := {
  age : Z;
  annual_income : float;
  employment_length : Z;
  home_ownership : string;
  purpose : string;
  loan_amount : float;
  term_months : Z;
  interest_rate : float;
  dti : float;
  credit_score : float;
  delinquency_2yrs : Z;
  num_open_acc : Z
}.

(** [pd.DataFrame([a.dict() for a in records])]: one column per field, in
    declaration order; [predict] builds it from a single record. *)
Definition DataFrame_of_records (records : list LoanApplication)
  : pd.DataFrame :=
  [ ("age", pd.SInt (map age records));
    ("annual_income", pd.SFloat (map annual_income records));
    ("employment_length", pd.SInt (map employment_length records));
    ("home_ownership", pd.SStr (map home_ownership records));
    ("purpose", pd.SStr (map purpose records));
    ("loan_amount", pd.SFloat (map loan_amount records));
    ("term_months", pd.SInt (map term_months records));
    ("interest_rate", pd.SFloat (map interest_rate records));
    ("dti", pd.SFloat (map dti records));
    ("credit_score", pd.SFloat (map credit_score records));
    ("delinquency_2yrs", pd.SInt (map delinquency_2yrs records));
    ("num_open_acc", pd.SInt (map num_open_acc records)) ]%string.

Definition risk_factors : list string :=
  [ "employment_risk"; "high_interest"; "young_borrower";
    "multiple_delinquencies"; "many_open_accounts" ]%string.

Definition credit_score_bins : list Z := [0; 580; 670; 740; 850].

Definition credit_score_labels : list string :=
  [ "Poor"; "Fair"; "Good"; "Excellent" ]%string.

(** [add_feature_engineering(df)], one column assignment after the other
    as in the source (the same function is in advanced_train.py). *)
Definition add_feature_engineering (df : pd.DataFrame)
  : result pd.DataFrame :=
  (* Original features *)
  let* a := pd.getitem df "annual_income" in
  let* b := pd.getitem df "loan_amount" in
  let* v := pd.truediv a b in
  let df := pd.setitem df "income_to_loan_ratio" v in
  let* a := pd.getitem df "employment_length" in
  let* m := pd.lt a (pd.PyInt 2) in
  let* v := pd.astype_int m in
  let df := pd.setitem df "employment_risk" v in
  let* a := pd.getitem df "credit_score" in
  let* v := pd.cut a credit_score_bins credit_score_labels true in
  let df := pd.setitem df "credit_score_binned" v in
  (* Additional engineered features *)
  let* a := pd.getitem df "loan_amount" in
  let* b := pd.getitem df "term_months" in
  let* v := pd.truediv a b in
  let df := pd.setitem df "monthly_payment" v in
  let* a := pd.getitem df "monthly_payment" in
  let* b := pd.getitem df "annual_income" in
  let* b := pd.truediv_scalar b (pd.PyInt 12) in
  let* v := pd.truediv a b in
  let df := pd.setitem df "payment_to_income_ratio" v in
  let* a := pd.getitem df "interest_rate" in
  let* b := pd.getitem df "interest_rate" in
  let* med := pd.median b in
  let* m := pd.gt a (pd.PyFloat med) in
  let* v := pd.astype_int m in
  let df := pd.setitem df "high_interest" v in
  let* a := pd.getitem df "age" in
  let* m := pd.lt a (pd.PyInt 30) in
  let* v := pd.astype_int m in
  let df := pd.setitem df "young_borrower" v in
  let* a := pd.getitem df "employment_length" in
  let* m := pd.gt a (pd.PyInt 10) in
  let* v := pd.astype_int m in
  let df := pd.setitem df "experienced_worker" v in
  let* a := pd.getitem df "credit_score" in
  let* m := pd.gt a (pd.PyInt 750) in
  let* v := pd.astype_int m in
  let df := pd.setitem df "high_credit_score" v in
  let* a := pd.getitem df "delinquency_2yrs" in
  let* m := pd.gt a (pd.PyInt 1) in
  let* v := pd.astype_int m in
  let df := pd.setitem df "multiple_delinquencies" v in
  let* a := pd.getitem df "num_open_acc" in
  let* b := pd.getitem df "num_open_acc" in
  let* med := pd.median b in
  let* m := pd.gt a (pd.PyFloat med) in
  let* v := pd.astype_int m in
  let df := pd.setitem df "many_open_accounts" v in
  (* Risk score combination *)
  let* sub := pd.getitems df risk_factors in
  let* v := pd.sum_axis1 sub in
  let df := pd.setitem df "risk_score" v in
  Ok df.

(** [add_feature_engineering(df)] of train.py, which derives the first
    three features only. *)
Module train.

Definition add_feature_engineering (df : pd.DataFrame)
  : result pd.DataFrame :=
  let* a := pd.getitem df "annual_income" in
  let* b := pd.getitem df "loan_amount" in
  let* v := pd.truediv a b in
  let df := pd.setitem df "income_to_loan_ratio" v in
  let* a := pd.getitem df "employment_length" in
  let* m := pd.lt a (pd.PyInt 2) in
  let* v := pd.astype_int m in
  let df := pd.setitem df "employment_risk" v in
  let* a := pd.getitem df "credit_score" in
  let* v := pd.cut a credit_score_bins credit_score_labels true in
  let df := pd.setitem df "credit_score_binned" v in
  Ok df.

End train.

(** The trained pipeline loaded from [MODEL_PATH], an external
    collaborator: [predict_proba] returns one row of class probabilities
    per input row, [predict] one label per input row; either may raise. *)
Module Model.
Record t : Type := {
  predict_proba : pd.DataFrame -> result (list (list float));
  predict : pd.DataFrame -> result (list Z)
}.
End Model.

(** A value of [tuning_results.json]. *)
Inductive json : Type :=
| JNumber (x : float)
| JBool (b : bool)
| JString (s : string)
| JNull
| JContainer.

(** [d.get(key, default)] *)
Fixpoint dict_get (d : list (string * json)) (key : string) (default : json)
  : json :=
  match d with
  | [] => default
  | (k, v) :: d' => if String.eqb k key then v else dict_get d' key default
  end.

(** [xs[i]] *)
Definition index {A} (xs : list A) (i : nat) : result A :=
  match nth_error xs i with
  | Some x => Ok x
  | None => Raise (IndexError "index out of range")
  end.

(** [float(v)], [int(v)], [bool(v)] of a value read with [.iloc]. *)
Definition py_float (c : pd.cell) : result float :=
  match c with
  | pd.CFloat x => Ok x
  | pd.CInt z => Ok (Float64.of_Z z)
  | pd.CBool b => Ok (Float64.of_Z (b2z b))
  | pd.CStr _ | pd.CCat _ => Raise (ValueError "could not convert to float")
  end.

Definition py_int (c : pd.cell) : result Z :=
  match c with
  | pd.CInt z => Ok z
  | pd.CBool b => Ok (b2z b)
  | _ => Raise (ValueError "int(): value outside the modelled fragment")
  end.

Definition py_bool (c : pd.cell) : bool :=
  match c with
  | pd.CInt z => negb (z =? 0)
  | pd.CFloat x => negb (x =? 0)%float
  | pd.CBool b => b
  | pd.CStr s => negb (String.eqb s "")
  | pd.CCat (Some s) => negb (String.eqb s "")
  | pd.CCat None => true
  end.

Definition lower_ascii (c : Ascii.ascii) : Ascii.ascii :=
  let n := Ascii.nat_of_ascii c in
  if (Nat.leb 65 n && Nat.leb n 90)%bool then Ascii.ascii_of_nat (n + 32)
  else c.

(** [s.lower()] (ASCII) *)
Fixpoint lower (s : string) : string :=
  match s with
  | EmptyString => EmptyString
  | String c s' => String (lower_ascii c) (lower s')
  end.

(** The response of [/predict]. *)
Record Prediction : Type := {
  default_probability : float;
  default_probability_percent : string;
  binary_prediction : Z;
  prediction_label : string
}.

Record RiskAssessment : Type := {
  risk_level : string;
  risk_color : string;
  confidence : string
}.

Record Recommendation : Type := {
  decision : string;
  reasoning : string
}.

Record RiskFactors : Type := {
  employment_risk : bool;
  high_interest : bool;
  young_borrower : bool;
  multiple_delinquencies : bool;
  many_open_accounts : bool
}.

Record FeatureInsights : Type := {
  income_to_loan_ratio : float;
  monthly_payment : float;
  payment_to_income_ratio : float;
  risk_score : Z;
  credit_score_category : string;
  risk_factors_of : RiskFactors
}.

Record ModelInfo : Type := {
  model_type : json;
  model_performance : string;
  precision : string
}.

Record PredictResponse : Type := {
  prediction : Prediction;
  risk_assessment : RiskAssessment;
  recommendation : Recommendation;
  feature_analysis : FeatureInsights;
  model_info_of : ModelInfo
}.

(** One entry of the [results] list of [/batch-predict]. *)
Inductive BatchItem : Type :=
| Success (application_id : Z) (result : PredictResponse)
| Error (application_id : Z) (error : string).

(** [r["status"]] *)
Definition status (r : BatchItem) : string :=
  match r with
  | Success _ _ => "success"
  | Error _ _ => "error"
  end.

Record Summary : Type := {
  total_applications : Z;
  successful_predictions : Z;
  errors : Z;
  high_risk_count : Z
}.

Record BatchResponse : Type := {
  summary : Summary;
  results : list BatchItem
}.

(** Enhanced risk classification (the [if]/[elif] chain of [predict]):
    risk level and colour of a default probability. *)
Definition risk_classification (default_probability : float)
  : string * string :=
  if (0.8 <=? default_probability)%float then ("Very High", "red")
  else if (0.6 <=? default_probability)%float then ("High", "orange")
  else if (0.4 <=? default_probability)%float then ("Medium", "yellow")
  else if (0.2 <=? default_probability)%float then ("Low", "lightgreen")
  else ("Very Low", "green").

(** Recommendation logic of [predict]: decision and confidence. *)
Definition recommendation_logic (default_probability : float)
    (binary_prediction : Z) : string * string :=
  if binary_prediction =? 1 then
    ("Reject", if (0.7 <? default_probability)%float then "High" else "Medium")
  else if (default_probability <? 0.1)%float then ("Approve", "High")
  else if (default_probability <? 0.3)%float then
    ("Approve with monitoring", "Medium")
  else ("Further review required", "Low").

(** [sum(1 for r in results if cond(r))] *)
Definition count (cond : BatchItem -> bool) (results : list BatchItem) : Z :=
  fold_left (fun acc r => if cond r then acc + 1 else acc) results 0.

Definition is_high_risk (r : BatchItem) : bool :=
  match r with
  | Success _ res =>
      existsb (String.eqb (risk_level (risk_assessment res)))
        ["High"; "Very High"]%string
  | Error _ _ => false
  end.

Section Server.

(** Python built-ins whose result is a decimal rendering: [round(x, n)],
    [format(x, ".nf")] and [str(e)] of an exception. *)
Variable round : float -> Z -> float.
Variable format_f : nat -> float -> string.
Variable str : exn -> string.
Variable str_number : pd.cell -> string.

(** The globals set by [load_model] at startup. *)
Variable model : option Model.t.
Variable model_info : list (string * json).

(** [str(v)] of a value read with [.iloc] *)
Definition str_cell (c : pd.cell) : string :=
  match c with
  | pd.CStr s => s
  | pd.CCat (Some s) => s
  | pd.CCat None => "nan"
  | pd.CBool true => "True"
  | pd.CBool false => "False"
  | pd.CInt _ | pd.CFloat _ => str_number c
  end.

(** [f"{v:.3f}"] for a value of [model_info] *)
Definition format_3f (v : json) : result string :=
  match v with
  | JNumber x => Ok (format_f 3 x)
  | JBool b => Ok (format_f 3 (Float64.of_Z (b2z b)))
  | JString _ => Raise (ValueError "Unknown format code 'f' for object of type 'str'")
  | JNull | JContainer => Raise (TypeError "unsupported format string")
  end.

(** The [try] block of [predict]. *)
Definition predict_body (m : Model.t) (application : LoanApplication)
  : result PredictResponse :=
  let df := DataFrame_of_records [application] in
  let* df := add_feature_engineering df in
  let* proba := Model.predict_proba m df in
  let* pred_proba := index proba 0 in
  let* default_probability := index pred_proba 1 in
  let* labels := Model.predict m df in
  let* binary_prediction := index labels 0 in
  let '(risk_level, risk_color) := risk_classification default_probability in
  let '(recommendation, confidence) :=
    recommendation_logic default_probability binary_prediction in
  (* Feature insights *)
  let* c := pd.at_row df "income_to_loan_ratio" 0 in
  let* income_to_loan_ratio := py_float c in
  let* c := pd.at_row df "monthly_payment" 0 in
  let* monthly_payment := py_float c in
  let* c := pd.at_row df "payment_to_income_ratio" 0 in
  let* payment_to_income_ratio := py_float c in
  let* c := pd.at_row df "risk_score" 0 in
  let* risk_score := py_int c in
  let* credit_score_category := pd.at_row df "credit_score_binned" 0 in
  let* employment_risk := pd.at_row df "employment_risk" 0 in
  let* high_interest := pd.at_row df "high_interest" 0 in
  let* young_borrower := pd.at_row df "young_borrower" 0 in
  let* multiple_delinquencies := pd.at_row df "multiple_delinquencies" 0 in
  let* many_open_accounts := pd.at_row df "many_open_accounts" 0 in
  let feature_insights :=
    {| income_to_loan_ratio := round income_to_loan_ratio 4;
       monthly_payment := round monthly_payment 2;
       payment_to_income_ratio := round payment_to_income_ratio 4;
       risk_score := risk_score;
       credit_score_category := str_cell credit_score_category;
       risk_factors_of :=
         {| employment_risk := py_bool employment_risk;
            high_interest := py_bool high_interest;
            young_borrower := py_bool young_borrower;
            multiple_delinquencies := py_bool multiple_delinquencies;
            many_open_accounts := py_bool many_open_accounts |} |} in
  let* performance :=
    format_3f (dict_get model_info "best_score" (JNumber 0.946)) in
  Ok {| prediction :=
          {| default_probability := round default_probability 4;
             default_probability_percent :=
               format_f 2 (default_probability * 100) ++ "%";
             binary_prediction := binary_prediction;
             prediction_label :=
               if binary_prediction =? 1 then "Default" else "No Default" |};
        risk_assessment :=
          {| risk_level := risk_level;
             risk_color := risk_color;
             confidence := confidence |};
        recommendation :=
          {| decision := recommendation;
             reasoning :=
               "Based on " ++ format_f 2 (default_probability * 100)
               ++ "% default probability and " ++ lower risk_level
               ++ " risk level" |};
        feature_analysis := feature_insights;
        model_info_of :=
          {| model_type :=
               dict_get model_info "best_model" (JString "gradient_boost");
             model_performance := "ROC-AUC: " ++ performance;
             precision := "88.24%" |} |}.

(** [POST /predict] *)
Definition predict (application : LoanApplication) : result PredictResponse :=
  match model with
  | None => Raise (HTTPException 500 "Model not loaded on server")
  | Some m =>
      try_except (predict_body m application)
        (fun e => Raise (HTTPException 400 ("Prediction error: " ++ str e)))
  end.

(** The [for i, app in enumerate(applications)] loop of [batch_predict],
    entered at index [i] with the [results] appended so far. *)
Fixpoint batch_loop (i : nat) (applications : list LoanApplication)
    (results : list BatchItem) : list BatchItem :=
  match applications with
  | [] => results
  | app :: rest =>
      let results :=
        match predict app with
        | Ok result => (results ++ [Success (Z.of_nat i + 1) result])%list
        | Raise e => (results ++ [Error (Z.of_nat i + 1) (str e)])%list
        end in
      batch_loop (S i) rest results
  end.

(** [POST /batch-predict] *)
Definition batch_predict (applications : list LoanApplication)
  : result BatchResponse :=
  match model with
  | None => Raise (HTTPException 500 "Model not loaded on server")
  | Some _ =>
      if 100 <? Z.of_nat (List.length applications) then
        Raise (HTTPException 400 "Maximum 100 applications per batch")
      else
        try_except
          (let results := batch_loop 0 applications [] in
           let summary :=
             {| total_applications := Z.of_nat (List.length applications);
                successful_predictions :=
                  count (fun r => String.eqb (status r) "success") results;
                errors :=
                  count (fun r => String.eqb (status r) "error") results;
                high_risk_count := count is_high_risk results |} in
           Ok {| summary := summary; results := results |})
          (fun e =>
             Raise (HTTPException 400 ("Batch prediction error: " ++ str e)))
  end.

End Server.

(** * The other endpoints of enhanced_api.py *)

(** What [json.load] returns for [tuning_results.json]: an object, or any
    other JSON value. *)
Inductive json_doc : Type :=
| JObject (d : list (string * json))
| JNotObject.

(** [load_model()], run once at startup: the globals [(model, model_info)]
    it leaves, given the outcome of [mlflow.sklearn.load_model(MODEL_PATH)]
    and of opening and parsing [tuning_results.json].  A parsed value that
    is not an object has no [.get]: the first [print] raises inside the
    outer [try], whose handler resets both globals. *)
Definition load_model (loaded : result Model.t)
    (tuning_results : result json_doc)
  : option Model.t * list (string * json) :=
  match loaded with
  | Raise _ => (None, [])
  | Ok m =>
      match tuning_results with
      | Ok (JObject d) => (Some m, d)
      | Ok JNotObject => (None, [])
      | Raise _ =>
          (Some m,
           [("best_model", JString "tuned_model");
            ("best_score", JString "unknown")])
      end
  end.

Module HealthResponse.
Record t : Type := {
  status : string;
  model_loaded : bool;
  model_path : string;
  service : string;
  model_type : json;
  roc_auc : json;
  target_precision : string;
  target_roc_auc : string;
  enhanced_feature_engineering : bool;
  risk_scoring : bool;
  precision_optimized : bool
}.
End HealthResponse.

Module ModelInfoResponse.
Record t : Type := {
  model_details : list (string * json);
  original_features : list string;
  enhanced_features : list string;
  performance_comparison : json;
  tuning_config : json
}.
End ModelInfoResponse.

Section Info.

Variable MODEL_PATH : string.
Variable model : option Model.t.
Variable model_info : list (string * json).

(** [GET /health] *)
Definition health : HealthResponse.t :=
  {| HealthResponse.status := "ok";
     HealthResponse.model_loaded :=
       match model with Some _ => true | None => false end;
     HealthResponse.model_path := MODEL_PATH;
     HealthResponse.service := "Enhanced Loan Default Prediction API";
     HealthResponse.model_type :=
       dict_get model_info "best_model" (JString "unknown");
     HealthResponse.roc_auc :=
       dict_get model_info "best_score" (JString "unknown");
     HealthResponse.target_precision := ">80%";
     HealthResponse.target_roc_auc := ">85%";
     HealthResponse.enhanced_feature_engineering := true;
     HealthResponse.risk_scoring := true;
     HealthResponse.precision_optimized := true |}.

(** [GET /model-info] *)
Definition model_info_endpoint : result ModelInfoResponse.t :=
  match model with
  | None => Raise (HTTPException 500 "Model not loaded")
  | Some _ =>
      Ok {| ModelInfoResponse.model_details := model_info;
            ModelInfoResponse.original_features :=
              ["income_to_loan_ratio"; "employment_risk";
               "credit_score_binned"];
            ModelInfoResponse.enhanced_features :=
              ["monthly_payment"; "payment_to_income_ratio"; "high_interest";
               "young_borrower"; "experienced_worker"; "high_credit_score";
               "multiple_delinquencies"; "many_open_accounts"; "risk_score"];
            ModelInfoResponse.performance_comparison :=
              dict_get model_info "all_results" JContainer;
            ModelInfoResponse.tuning_config :=
              dict_get model_info "training_config" JContainer |}
  end.

End Info.

(** * predict_api/app.py: the first version of the service *)

(** Its [LoanApplication] and [add_feature_engineering] are, word for
    word, those of enhanced_api.py, and are shared here. *)
Module predict_api.

Record PredictResponse : Type := {
  default_probability : float;
  binary_prediction : Z;
  risk_level : string;
  recommendation : string
}.

(** Risk classification based on probability (the [if]/[elif] chain of
    [predict]). *)
Definition risk_classification (default_probability : float) : string :=
  if (0.7 <=? default_probability)%float then "High"
  else if (0.4 <=? default_probability)%float then "Medium"
  else "Low".

Section Server.

Variable round : float -> Z -> float.
Variable str : exn -> string.
Variable model : option Model.t.

(** The [try] block of [predict]. *)
Definition predict_body (m : Model.t) (application : LoanApplication)
  : result PredictResponse :=
  let df := DataFrame_of_records [application] in
  let* df := add_feature_engineering df in
  let* proba := Model.predict_proba m df in
  let* pred_proba := index proba 0 in
  let* default_probability := index pred_proba 1 in
  let* labels := Model.predict m df in
  let* binary_prediction := index labels 0 in
  let risk_level := risk_classification default_probability in
  Ok {| default_probability := round default_probability 4;
        binary_prediction := binary_prediction;
        risk_level := risk_level;
        recommendation :=
          if binary_prediction =? 0 then "Approve" else "Reject" |}.

(** [POST /predict] *)
Definition predict (application : LoanApplication) : result PredictResponse :=
  match model with
  | None => Raise (HTTPException 500 "Model not loaded on server")
  | Some m =>
      try_except (predict_body m application)
        (fun e => Raise (HTTPException 400 ("Prediction error: " ++ str e)))
  end.

End Server.

End predict_api.

(** * final_validation.py: the scenario check *)
Module final_validation.

(** Risk assessment of [test_prediction_scenarios]. *)
Definition risk_assessment (pred_proba : float) : string :=
  if (0.8 <=? pred_proba)%float then "Very High"
  else if (0.6 <=? pred_proba)%float then "High"
  else if (0.4 <=? pred_proba)%float then "Medium"
  else if (0.2 <=? pred_proba)%float then "Low"
  else "Very Low".

(** [x in xs] for strings *)
Definition mem (x : string) (xs : list string) : bool :=
  existsb (String.eqb x) xs.

(** The validation of a scenario: [true] where the script prints the
    check mark, [false] where it prints the warning sign. *)
Definition validation (expected_risk risk_level : string) : bool :=
  (mem expected_risk ["Very Low"; "Low"]
   && mem risk_level ["Very Low"; "Low"; "Medium"])
  || (String.eqb expected_risk "Medium"
      && mem risk_level ["Low"; "Medium"; "High"])
  || (String.eqb expected_risk "High"
      && mem risk_level ["Medium"; "High"; "Very High"]).

End final_validation.

(** * advanced_train.py: choice of the best model *)
Module advanced_train.

(** The tracking of the best model in the training loop of [main], over
    the test ROC-AUC of each trained model in training order; entered
    with [best_model_name = None] and [best_score = 0]. *)
Fixpoint track_best (models : list (string * float))
    (best_model_name : option string) (best_score : float)
  : option string * float :=
  match models with
  | [] => (best_model_name, best_score)
  | (model_name, roc_auc) :: rest =>
      if (best_score <? roc_auc)%float then
        track_best rest (Some model_name) roc_auc
      else track_best rest best_model_name best_score
  end.

(** What the summary after the loop reports: the best model and its
    score, or the [AttributeError] of [best_model_name.upper()] when no
    model was retained. *)
Inductive report : Type :=
| Best (best_model_name : string) (best_score : float)
| AttributeError.

Definition best_model_report (models : list (string * float)) : report :=
  match track_best models None 0 with
  | (Some name, score) => Best name score
  | (None, _) => AttributeError
  end.

End advanced_train.

(** * feature_analysis.py: the feature set of the analysis script *)
Module feature_analysis.

Definition interest_rate_bins : list Z := [0; 8; 12; 16; 25].

Definition interest_rate_labels : list string :=
  [ "Low"; "Medium"; "High"; "Very_High" ].

Definition add_feature_engineering (df : pd.DataFrame)
  : result pd.DataFrame :=
  let* a := pd.getitem df "annual_income" in
  let* b := pd.getitem df "loan_amount" in
  let* v := pd.truediv a b in
  let df := pd.setitem df "income_to_loan_ratio" v in
  let* a := pd.getitem df "employment_length" in
  let* m := pd.lt a (pd.PyInt 2) in
  let* v := pd.astype_int m in
  let df := pd.setitem df "employment_risk" v in
  let* a := pd.getitem df "credit_score" in
  let* v := pd.cut a credit_score_bins credit_score_labels true in
  let df := pd.setitem df "credit_score_binned" v in
  (* Additional features *)
  let* a := pd.getitem df "loan_amount" in
  let* b := pd.getitem df "term_months" in
  let* v := pd.truediv a b in
  let df := pd.setitem df "monthly_payment" v in
  let* a := pd.getitem df "monthly_payment" in
  let* a := pd.mul_scalar a (pd.PyInt 12) in
  let* b := pd.getitem df "annual_income" in
  let* v := pd.truediv a b in
  let df := pd.setitem df "payment_to_income" v in
  let* a := pd.getitem df "loan_amount" in
  let* b := pd.getitem df "credit_score" in
  let* b := pd.mul_scalar b (pd.PyInt 100) in
  let* v := pd.truediv a b in
  let df := pd.setitem df "credit_utilization" v in
  let* a := pd.getitem df "age" in
  let* b := pd.getitem df "employment_length" in
  let* v := pd.mul a b in
  let df := pd.setitem df "age_employment_interaction" v in
  let* a := pd.getitem df "dti" in
  let* m := pd.gt a (pd.PyInt 36) in
  let* v := pd.astype_int m in
  let df := pd.setitem df "high_dti" v in
  let* a := pd.getitem df "delinquency_2yrs" in
  let* m := pd.gt a (pd.PyInt 1) in
  let* v := pd.astype_int m in
  let df := pd.setitem df "multiple_delinquencies" v in
  let* a := pd.getitem df "num_open_acc" in
  let* m := pd.gt a (pd.PyInt 10) in
  let* v := pd.astype_int m in
  let df := pd.setitem df "many_accounts" v in
  let* a := pd.getitem df "interest_rate" in
  let* v := pd.cut a interest_rate_bins interest_rate_labels true in
  let df := pd.setitem df "interest_rate_category" v in
  Ok df.

End feature_analysis.

(** * Row-wise reading of the column assignments *)

(** What [add_feature_engineering] stores in each new column for the row
    built from one record; [med_rate] and [med_acc] are the medians of the
    [interest_rate] and [num_open_acc] columns of the frame. *)
Module RowOf.

Definition income_to_loan_ratio (a : LoanApplication) : float :=
  (annual_income a / loan_amount a)%float.

Definition employment_risk (a : LoanApplication) : Z :=
  b2z (employment_length a <? 2).

Definition credit_score_binned (a : LoanApplication) : option string :=
  pd.cut1 (map Float64.of_Z credit_score_bins) credit_score_labels true
    (credit_score a).

Definition monthly_payment (a : LoanApplication) : float :=
  (loan_amount a / Float64.of_Z (term_months a))%float.

Definition payment_to_income_ratio (a : LoanApplication) : float :=
  (monthly_payment a / (annual_income a / Float64.of_Z 12))%float.

Definition high_interest (med_rate : float) (a : LoanApplication) : Z :=
  b2z (med_rate <? interest_rate a)%float.

Definition young_borrower (a : LoanApplication) : Z := b2z (age a <? 30).

Definition experienced_worker (a : LoanApplication) : Z :=
  b2z (10 <? employment_length a).

Definition high_credit_score (a : LoanApplication) : Z :=
  b2z (Float64.of_Z 750 <? credit_score a)%float.

Definition multiple_delinquencies (a : LoanApplication) : Z :=
  b2z (1 <? delinquency_2yrs a).

Definition many_open_accounts (med_acc : float) (a : LoanApplication) : Z :=
  b2z (med_acc <? Float64.of_Z (num_open_acc a))%float.

Definition risk_score (med_rate med_acc : float) (a : LoanApplication) : Z :=
  employment_risk a + high_interest med_rate a + young_borrower a
  + multiple_delinquencies a + many_open_accounts med_acc a.

(** The row of the engineered frame that belongs to record [a]. *)
Definition cells (med_rate med_acc : float) (a : LoanApplication)
  : list (string * pd.cell) :=
  [ ("age", pd.CInt (age a));
    ("annual_income", pd.CFloat (annual_income a));
    ("employment_length", pd.CInt (employment_length a));
    ("home_ownership", pd.CStr (home_ownership a));
    ("purpose", pd.CStr (purpose a));
    ("loan_amount", pd.CFloat (loan_amount a));
    ("term_months", pd.CInt (term_months a));
    ("interest_rate", pd.CFloat (interest_rate a));
    ("dti", pd.CFloat (dti a));
    ("credit_score", pd.CFloat (credit_score a));
    ("delinquency_2yrs", pd.CInt (delinquency_2yrs a));
    ("num_open_acc", pd.CInt (num_open_acc a));
    ("income_to_loan_ratio", pd.CFloat (income_to_loan_ratio a));
    ("employment_risk", pd.CInt (employment_risk a));
    ("credit_score_binned", pd.CCat (credit_score_binned a));
    ("monthly_payment", pd.CFloat (monthly_payment a));
    ("payment_to_income_ratio", pd.CFloat (payment_to_income_ratio a));
    ("high_interest", pd.CInt (high_interest med_rate a));
    ("young_borrower", pd.CInt (young_borrower a));
    ("experienced_worker", pd.CInt (experienced_worker a));
    ("high_credit_score", pd.CInt (high_credit_score a));
    ("multiple_delinquencies", pd.CInt (multiple_delinquencies a));
    ("many_open_accounts", pd.CInt (many_open_accounts med_acc a));
    ("risk_score", pd.CInt (risk_score med_rate med_acc a)) ].

End RowOf.

Definition median_interest_rate (records : list LoanApplication) : float :=
  pd.nanmedian (map interest_rate records).

Definition median_num_open_acc (records : list LoanApplication) : float :=
  pd.nanmedian (map Float64.of_Z (map num_open_acc records)).

Definition engineered_columns (med_rate med_acc : float)
    (records : list LoanApplication) : pd.DataFrame :=
  [ ("income_to_loan_ratio", pd.SFloat (map RowOf.income_to_loan_ratio records));
    ("employment_risk", pd.SInt (map RowOf.employment_risk records));
    ("credit_score_binned", pd.SCat (map RowOf.credit_score_binned records));
    ("monthly_payment", pd.SFloat (map RowOf.monthly_payment records));
    ("payment_to_income_ratio",
      pd.SFloat (map RowOf.payment_to_income_ratio records));
    ("high_interest", pd.SInt (map (RowOf.high_interest med_rate) records));
    ("young_borrower", pd.SInt (map RowOf.young_borrower records));
    ("experienced_worker", pd.SInt (map RowOf.experienced_worker records));
    ("high_credit_score", pd.SInt (map RowOf.high_credit_score records));
    ("multiple_delinquencies",
      pd.SInt (map RowOf.multiple_delinquencies records));
    ("many_open_accounts",
      pd.SInt (map (RowOf.many_open_accounts med_acc) records));
    ("risk_score", pd.SInt (map (RowOf.risk_score med_rate med_acc) records)) ].


(** The frame [add_feature_engineering] returns for the frame built from
    [records]. *)
Definition engineered (records : list LoanApplication) : pd.DataFrame :=
  (DataFrame_of_records records
   ++ engineered_columns (median_interest_rate records)
        (median_num_open_acc records) records)%list.

(** * Notions used to state the properties *)

(** [classified m a p label]: for the frame engineered from the single
    record [a], the classifier [m] answers probability [p] of class 1 and
    label [label] for row 0. *)
Definition classified (m : Model.t) (a : LoanApplication) (p : float)
    (label : Z) : Prop :=
  exists proba pred_proba labels,
    Model.predict_proba m (engineered [a]) = Ok proba /\
    index proba 0 = Ok pred_proba /\
    index pred_proba 1 = Ok p /\
    Model.predict m (engineered [a]) = Ok labels /\
    index labels 0 = Ok label.

(** What the loop of [batch_predict] appends for the application at
    position [i] (counted from 0). *)
Definition outcome (round : float -> Z -> float)
    (format_f : nat -> float -> string) (str : exn -> string)
    (str_number : pd.cell -> string) (model : option Model.t)
    (model_info : list (string * json)) (i : nat) (app : LoanApplication)
  : BatchItem :=
  match predict round format_f str str_number model model_info app with
  | Ok result => Success (Z.of_nat i + 1) result
  | Raise e => Error (Z.of_nat i + 1) (str e)
  end.

Definition is_success (r : BatchItem) : bool :=
  match r with
  | Success _ _ => true
  | Error _ _ => false
  end.

Definition is_error (r : BatchItem) : bool :=
  match r with
  | Success _ _ => false
  | Error _ _ => true
  end.

(** A successful entry whose risk level is High or Very High. *)
Definition high_or_very_high (r : BatchItem) : bool :=
  match r with
  | Success _ res =>
      let level := risk_level (risk_assessment res) in
      (String.eqb level "High" || String.eqb level "Very High")%bool
  | Error _ _ => false
  end.

Definition too_large : exn :=
  HTTPException 400 "Maximum 100 applications per batch".

Definition not_loaded : exn := HTTPException 500 "Model not loaded on server".

(** * Notions used to state further properties *)

(** The raw columns that [add_feature_engineering] reads, in the order in
    which it first reads them, and those it never reads. *)
Definition columns_read : list string :=
  [ "annual_income"; "loan_amount"; "employment_length"; "credit_score";
    "term_months"; "interest_rate"; "age"; "delinquency_2yrs";
    "num_open_acc" ].

Definition columns_not_read : list string :=
  [ "home_ownership"; "purpose"; "dti" ].

(** The columns [add_feature_engineering] appends, in order. *)
Definition columns_added : list string :=
  [ "income_to_loan_ratio"; "employment_risk"; "credit_score_binned";
    "monthly_payment"; "payment_to_income_ratio"; "high_interest";
    "young_borrower"; "experienced_worker"; "high_credit_score";
    "multiple_delinquencies"; "many_open_accounts"; "risk_score" ].

(** The columns whose value in a row is computed from that row alone. *)
Definition row_local_columns : list string :=
  [ "age"; "annual_income"; "employment_length"; "home_ownership";
    "purpose"; "loan_amount"; "term_months"; "interest_rate"; "dti";
    "credit_score"; "delinquency_2yrs"; "num_open_acc";
    "income_to_loan_ratio"; "employment_risk"; "credit_score_binned";
    "monthly_payment"; "payment_to_income_ratio"; "young_borrower";
    "experienced_worker"; "high_credit_score"; "multiple_delinquencies" ].

(** The five risk levels, from the lowest. *)
Definition level_rank (level : string) : nat :=
  if String.eqb level "Very Low" then 0
  else if String.eqb level "Low" then 1
  else if String.eqb level "Medium" then 2
  else if String.eqb level "High" then 3
  else 4.

Definition is_Ok {A} (r : result A) : bool :=
  match r with
  | Ok _ => true
  | Raise _ => false
  end.

(** The entries the loop of [batch_predict] appends for [apps], the first
    of them at position [i]. *)
Fixpoint outcomes (round : float -> Z -> float)
    (format_f : nat -> float -> string) (str : exn -> string)
    (str_number : pd.cell -> string) (model : option Model.t)
    (model_info : list (string * json)) (i : nat)
    (apps : list LoanApplication) : list BatchItem :=
  match apps with
  | [] => []
  | a :: rest =>
      outcome round format_f str str_number model model_info i a
      :: outcomes round format_f str str_number model model_info (S i) rest
  end.

(** [predict] answers a High or Very High risk level. *)
Definition scored_high (r : result PredictResponse) : bool :=
  match r with
  | Ok res =>
      let level := risk_level (risk_assessment res) in
      (String.eqb level "High" || String.eqb level "Very High")%bool
  | Raise _ => false
  end.

(** What feature_analysis.py stores in the row built from one record. *)
Module AnalysisRow.

Definition payment_to_income (a : LoanApplication) : float :=
  (RowOf.monthly_payment a * Float64.of_Z 12 / annual_income a)%float.

Definition credit_utilization (a : LoanApplication) : float :=
  (loan_amount a / (credit_score a * Float64.of_Z 100))%float.

Definition interest_rate_category (a : LoanApplication) : option string :=
  pd.cut1 (map Float64.of_Z feature_analysis.interest_rate_bins)
    feature_analysis.interest_rate_labels true (interest_rate a).

Definition cells (a : LoanApplication) : list (string * pd.cell) :=
  [ ("age", pd.CInt (age a));
    ("annual_income", pd.CFloat (annual_income a));
    ("employment_length", pd.CInt (employment_length a));
    ("home_ownership", pd.CStr (home_ownership a));
    ("purpose", pd.CStr (purpose a));
    ("loan_amount", pd.CFloat (loan_amount a));
    ("term_months", pd.CInt (term_months a));
    ("interest_rate", pd.CFloat (interest_rate a));
    ("dti", pd.CFloat (dti a));
    ("credit_score", pd.CFloat (credit_score a));
    ("delinquency_2yrs", pd.CInt (delinquency_2yrs a));
    ("num_open_acc", pd.CInt (num_open_acc a));
    ("income_to_loan_ratio", pd.CFloat (RowOf.income_to_loan_ratio a));
    ("employment_risk", pd.CInt (RowOf.employment_risk a));
    ("credit_score_binned", pd.CCat (RowOf.credit_score_binned a));
    ("monthly_payment", pd.CFloat (RowOf.monthly_payment a));
    ("payment_to_income", pd.CFloat (payment_to_income a));
    ("credit_utilization", pd.CFloat (credit_utilization a));
    ("age_employment_interaction", pd.CInt (age a * employment_length a));
    ("high_dti", pd.CInt (b2z (Float64.of_Z 36 <? dti a)%float));
    ("multiple_delinquencies", pd.CInt (RowOf.multiple_delinquencies a));
    ("many_accounts", pd.CInt (b2z (10 <? num_open_acc a)));
    ("interest_rate_category", pd.CCat (interest_rate_category a)) ].

End AnalysisRow.

(** The frame feature_analysis.py derives for the frame built from
    [records]. *)
Definition analysis_frame (records : list LoanApplication) : pd.DataFrame :=
  (DataFrame_of_records records
   ++ [ ("income_to_loan_ratio",
          pd.SFloat (map RowOf.income_to_loan_ratio records));
        ("employment_risk", pd.SInt (map RowOf.employment_risk records));
        ("credit_score_binned",
          pd.SCat (map RowOf.credit_score_binned records));
        ("monthly_payment", pd.SFloat (map RowOf.monthly_payment records));
        ("payment_to_income",
          pd.SFloat (map AnalysisRow.payment_to_income records));
        ("credit_utilization",
          pd.SFloat (map AnalysisRow.credit_utilization records));
        ("age_employment_interaction",
          pd.SInt (map (fun a => age a * employment_length a) records));
        ("high_dti",
          pd.SInt (map (fun a => b2z (Float64.of_Z 36 <? dti a)%float)
                     records));
        ("multiple_delinquencies",
          pd.SInt (map RowOf.multiple_delinquencies records));
        ("many_accounts",
          pd.SInt (map (fun a => b2z (10 <? num_open_acc a)) records));
        ("interest_rate_category",
          pd.SCat (map AnalysisRow.interest_rate_category records)) ])%list.


(** * Fixtures: sample applications, a stand-in classifier and renderers *)
Module Fixtures.

Definition applicant (loan : float) (term : Z) (rate : float) (score : float)
    (open_acc : Z) : LoanApplication :=
  {| age := 35; annual_income := 90000; employment_length := 10;
     home_ownership := "OWN"; purpose := "home_improvement";
     loan_amount := loan; term_months := term; interest_rate := rate;
     dti := 12; credit_score := score; delinquency_2yrs := 0;
     num_open_acc := open_acc |}.

Definition low_risk_app : LoanApplication := applicant 20000 36 7.5 800 3.

Definition zero_loan_app : LoanApplication := applicant 0 36 7.5 800 3.

Definition cheap_loan_app : LoanApplication := applicant 5000 12 5 700 1.

Definition mixed_batch : list LoanApplication :=
  [low_risk_app; zero_loan_app; low_risk_app].

Definition fallback_info : list (string * json) :=
  [("best_model", JString "tuned_model"); ("best_score", JString "unknown")].

Definition trained_models : list (string * float) :=
  [("logistic", 0.91%float); ("random_forest", 0.94%float);
   ("gradient_boost", 0.94%float); ("svm", 0.9%float)].

Definition finite_column (df : pd.DataFrame) (c : string) : bool :=
  match pd.getitem df c with
  | Ok (pd.SFloat l) => forallb PrimFloat.is_finite l
  | _ => false
  end.

(** A classifier that answers probability [p] and label [label] for every
    row, and, as scikit-learn estimators do, rejects a frame that holds a
    non-finite feature. *)
Definition toy_model (p : float) (label : Z) : Model.t :=
  {| Model.predict_proba := fun df =>
       if finite_column df "income_to_loan_ratio"
          && finite_column df "monthly_payment"
       then Ok (repeat [(1 - p)%float; p] (pd.nrows df))
       else Raise (ValueError "Input contains infinity");
     Model.predict := fun df => Ok (repeat label (pd.nrows df)) |}.

(** A classifier that accepts any frame. *)
Definition lenient_model (p : float) (label : Z) : Model.t :=
  {| Model.predict_proba := fun df => Ok (repeat [(1 - p)%float; p] (pd.nrows df));
     Model.predict := fun df => Ok (repeat label (pd.nrows df)) |}.

Definition no_round (x : float) (_ : Z) : float := x.

Definition no_format (_ : nat) (_ : float) : string := "?".

Definition message (e : exn) : string :=
  match e with
  | KeyError k => k
  | TypeError msg | ValueError msg | IndexError msg | ModelError msg => msg
  | HTTPException _ detail => detail
  end.

Definition no_str (_ : pd.cell) : string := "?".

Definition serve (m : option Model.t) (a : LoanApplication)
  : result PredictResponse :=
  predict no_round no_format message no_str m [] a.

Definition serve_batch (m : option Model.t) (l : list LoanApplication)
  : result BatchResponse :=
  batch_predict no_round no_format message no_str m [] l.

Definition serve_info (info : list (string * json)) (m : option Model.t)
    (a : LoanApplication) : result PredictResponse :=
  predict no_round no_format message no_str m info a.

End Fixtures.

(** * Facts on binary64 comparison and division *)
Module Float64Facts.
Import Float64.

Lemma SFcompare_key x y :
  SFcompare x y =
  match key x, key y with
  | Some a, Some b => Some (lex_compare a b)
  | _, _ => None
  end.
Proof.
  destruct x as [[]|[]| |[] mx ex], y as [[]|[]| |[] my ey]; cbn;
    try reflexivity.
  rewrite Z.compare_opp, (Z.compare_antisym ex ey).
  change (PosDef.Pos.compare_cont Eq mx my) with (Pos.compare mx my).
  destruct (ex ?= ey); reflexivity.
Qed.

Lemma lex_compare_spec a b :
  CompareSpec (lex_eq a b) (lex_lt a b) (lex_lt b a) (lex_compare a b).
Proof.
  destruct a as [[a1 a2] a3], b as [[b1 b2] b3];
    unfold lex_compare, lex_lt, lex_eq.
  destruct (Z.compare_spec a1 b1); [subst | constructor; lia ..].
  destruct (Z.compare_spec a2 b2); [subst | constructor; lia ..].
  destruct (Z.compare_spec a3 b3); constructor; lia.
Qed.

Lemma lex_trichotomy a b c :
  c = lex_compare a b ->
  match c with
  | Eq => lex_eq a b /\ ~ lex_lt a b
  | Lt => lex_lt a b /\ ~ lex_eq a b
  | Gt => ~ lex_lt a b /\ ~ lex_eq a b
  end.
Proof.
  intros ->. destruct (lex_compare_spec a b) as [H|H|H];
    destruct a as [[a1 a2] a3], b as [[b1 b2] b3];
    unfold lex_lt, lex_eq in *; lia.
Qed.

Lemma ltb_true x y : (x <? y)%float = true <-> lt x y.
Proof.
  rewrite ltb_spec. unfold SFltb, lt. rewrite SFcompare_key.
  destruct (key (Prim2SF x)) as [a|], (key (Prim2SF y)) as [b|];
    try (split; [discriminate | contradiction]).
  pose proof (lex_trichotomy a b _ eq_refl) as H.
  destruct (lex_compare a b); intuition discriminate.
Qed.

Lemma leb_true x y : (x <=? y)%float = true <-> le x y.
Proof.
  rewrite leb_spec. unfold SFleb, le. rewrite SFcompare_key.
  destruct (key (Prim2SF x)) as [a|], (key (Prim2SF y)) as [b|];
    try (split; [discriminate | contradiction]).
  pose proof (lex_trichotomy a b _ eq_refl) as H.
  destruct (lex_compare a b); intuition discriminate.
Qed.

Lemma eqb_true x y : (x =? y)%float = true <-> eq x y.
Proof.
  rewrite eqb_spec. unfold SFeqb, eq. rewrite SFcompare_key.
  destruct (key (Prim2SF x)) as [a|], (key (Prim2SF y)) as [b|];
    try (split; [discriminate | contradiction]).
  pose proof (lex_trichotomy a b _ eq_refl) as H.
  destruct (lex_compare a b); intuition discriminate.
Qed.

Lemma ltb_false x y : (x <? y)%float = false <-> ~ lt x y.
Proof. rewrite <- ltb_true. destruct (x <? y)%float; intuition congruence. Qed.

Lemma leb_false x y : (x <=? y)%float = false <-> ~ le x y.
Proof. rewrite <- leb_true. destruct (x <=? y)%float; intuition congruence. Qed.

Lemma eqb_false x y : (x =? y)%float = false <-> ~ eq x y.
Proof. rewrite <- eqb_true. destruct (x =? y)%float; intuition congruence. Qed.

Lemma is_nan_true x : PrimFloat.is_nan x = true <-> ~ eq x x.
Proof.
  unfold PrimFloat.is_nan. rewrite negb_true_iff. apply eqb_false.
Qed.

Lemma is_nan_false x : PrimFloat.is_nan x = false <-> eq x x.
Proof.
  unfold PrimFloat.is_nan. rewrite negb_false_iff. apply eqb_true.
Qed.

(** Division by a zero of either sign raises nothing: the quotient is an
    infinity or NaN. *)
Lemma div_zero_not_finite x y :
  (y =? 0)%float = true -> PrimFloat.is_finite (x / y)%float = false.
Proof.
  intros H. rewrite eqb_spec in H.
  change (Prim2SF 0%float) with (S754_zero false) in H.
  assert (Hy : exists s, Prim2SF y = S754_zero s).
  { destruct (Prim2SF y) as [s|s| |s m e]; cbn in H; try discriminate.
    - eauto.
    - destruct s; discriminate.
    - destruct s; discriminate. }
  destruct Hy as [s Hy].
  unfold PrimFloat.is_finite, PrimFloat.is_nan, PrimFloat.is_infinity.
  rewrite !eqb_spec, abs_spec, div_spec, Hy.
  change (Prim2SF infinity) with (S754_infinity false).
  unfold SF64div.
  destruct (Prim2SF x) as [sx|sx| |sx mx ex]; cbn; try reflexivity;
    destruct sx, s; reflexivity.
Qed.

End Float64Facts.

(** [float_order] decides a goal made of comparisons between floats, some
    of them literals: every comparison is read as an inequality between
    positions, and linear arithmetic does the rest. *)
Ltac is_float_literal c :=
  lazymatch c with
  | Float64.of_Z _ => idtac
  | ?f _ => fail
  | _ => tryif is_var c then fail else idtac
  end.

Ltac float_literal_keys :=
  repeat match goal with
  | |- context [Float64.key (Prim2SF ?c)] =>
      is_float_literal c;
      let v := eval vm_compute in (Float64.key (Prim2SF c)) in
      change (Float64.key (Prim2SF c)) with v in *
  | H : context [Float64.key (Prim2SF ?c)] |- _ =>
      is_float_literal c;
      let v := eval vm_compute in (Float64.key (Prim2SF c)) in
      change (Float64.key (Prim2SF c)) with v in *
  end.

Ltac float_variable_keys :=
  repeat match goal with
  | |- context [Float64.key (Prim2SF ?x)] =>
      destruct (Float64.key (Prim2SF x)) as [[[? ?] ?]|]
  | H : context [Float64.key (Prim2SF ?x)] |- _ =>
      destruct (Float64.key (Prim2SF x)) as [[[? ?] ?]|]
  end.

Ltac float_order :=
  rewrite ?Float64Facts.ltb_true, ?Float64Facts.ltb_false,
    ?Float64Facts.leb_true, ?Float64Facts.leb_false,
    ?Float64Facts.eqb_true, ?Float64Facts.eqb_false,
    ?Float64Facts.is_nan_true, ?Float64Facts.is_nan_false in *;
  unfold Float64.lt, Float64.le, Float64.eq in *;
  float_literal_keys; float_variable_keys;
  unfold Float64.lex_lt, Float64.lex_eq in *;
  lia.

(** Settles the comparison tested by the first conditional of the goal. *)
Ltac decide_comparison :=
  match goal with
  | |- context [if ?b then _ else _] =>
      first [ replace b with true by (symmetry; float_order)
            | replace b with false by (symmetry; float_order) ]
  end.

Lemma float_order_example x :
  (0.6 <=? x)%float = true -> (x <? 0.8)%float = true ->
  (0.8 <=? x)%float = false /\ (x <? 0.1)%float = false /\ PrimFloat.is_nan x = false.
Proof. intros H1 H2. float_order. Qed.
Lemma zip_with_map {A B C D} (f : B -> C -> D) (g : A -> B) (h : A -> C) l :
  zip_with f (map g l) (map h l) = map (fun a => f (g a) (h a)) l.
Proof. induction l as [|a l IH]; cbn; [|rewrite IH]; reflexivity. Qed.

Lemma zip_with_zeros {A} (g : A -> Z) l :
  zip_with Z.add (repeat 0 (List.length (map g l))) (map g l) = map g l.
Proof. induction l as [|a l IH]; cbn; [|rewrite IH]; reflexivity. Qed.

Lemma add_feature_engineering_records records :
  add_feature_engineering (DataFrame_of_records records) =
  Ok (engineered records).
Proof.
  unfold engineered, add_feature_engineering, DataFrame_of_records,
    median_interest_rate, median_num_open_acc. cbn.
  rewrite !map_map, zip_with_zeros, !zip_with_map. reflexivity.
Qed.

(** train.py fills [credit_score_binned] exactly as enhanced_api.py does. *)
Lemma train_credit_score_binned records :
  exists df,
    train.add_feature_engineering (DataFrame_of_records records) = Ok df /\
    pd.getitem df "credit_score_binned"
      = pd.getitem (engineered records) "credit_score_binned".
Proof.
  eexists. split; [reflexivity|].
  unfold engineered, DataFrame_of_records, engineered_columns. cbn.
  rewrite !map_map. reflexivity.
Qed.

(** * Facts on frames built from records *)

Lemma iloc_SInt {A} (f : A -> Z) l i a :
  nth_error l i = Some a -> pd.iloc (pd.SInt (map f l)) i = Ok (pd.CInt (f a)).
Proof. intros H. unfold pd.iloc. rewrite nth_error_map, H. reflexivity. Qed.

Lemma iloc_SFloat {A} (f : A -> float) l i a :
  nth_error l i = Some a ->
  pd.iloc (pd.SFloat (map f l)) i = Ok (pd.CFloat (f a)).
Proof. intros H. unfold pd.iloc. rewrite nth_error_map, H. reflexivity. Qed.

Lemma iloc_SStr {A} (f : A -> string) l i a :
  nth_error l i = Some a -> pd.iloc (pd.SStr (map f l)) i = Ok (pd.CStr (f a)).
Proof. intros H. unfold pd.iloc. rewrite nth_error_map, H. reflexivity. Qed.

Lemma iloc_SCat {A} (f : A -> option string) l i a :
  nth_error l i = Some a -> pd.iloc (pd.SCat (map f l)) i = Ok (pd.CCat (f a)).
Proof. intros H. unfold pd.iloc. rewrite nth_error_map, H. reflexivity. Qed.

(** Row [i] of the engineered frame is computed from record [i] and the two
    medians of the frame. *)
Lemma row_engineered records i a :
  nth_error records i = Some a ->
  pd.row (engineered records) i =
  Ok (RowOf.cells (median_interest_rate records) (median_num_open_acc records) a).
Proof.
  intros H. unfold engineered, DataFrame_of_records, engineered_columns.
  cbn [pd.row app].
  rewrite !(iloc_SInt _ _ _ _ H), !(iloc_SFloat _ _ _ _ H),
    !(iloc_SStr _ _ _ _ H), !(iloc_SCat _ _ _ _ H).
  reflexivity.
Qed.

(** [df[c].iloc[i]] reads the value named [c] in row [i]. *)
Lemma at_row_of_row df i r c :
  pd.row df i = Ok r ->
  pd.at_row df c i =
  match find (fun kv => String.eqb (fst kv) c) r with
  | Some kv => Ok (snd kv)
  | None => Raise (KeyError c)
  end.
Proof.
  revert r. induction df as [|[k s] df IH]; intros r H; cbn in H.
  - injection H as <-. reflexivity.
  - unfold pd.at_row. cbn [pd.getitem].
    destruct (pd.iloc s i) as [v|e] eqn:Ev; cbn in H; [|discriminate].
    destruct (pd.row df i) as [r'|e] eqn:Er; cbn in H; [|discriminate].
    injection H as <-. cbn [find fst snd].
    destruct (String.eqb k c); cbn [bind]; [assumption|].
    apply (IH r' eq_refl).
Qed.

Lemma at_row_engineered records i a c :
  nth_error records i = Some a ->
  pd.at_row (engineered records) c i =
  match
    find (fun kv => String.eqb (fst kv) c)
      (RowOf.cells (median_interest_rate records) (median_num_open_acc records) a)
  with
  | Some kv => Ok (snd kv)
  | None => Raise (KeyError c)
  end.
Proof. intros H. apply at_row_of_row, row_engineered, H. Qed.

(** * Facts on the median of a one-row column *)

Lemma nanmedian_singleton x :
  pd.nanmedian [x] = if PrimFloat.is_nan x then PrimFloat.nan else x.
Proof.
  unfold pd.nanmedian. cbn [filter].
  destruct (PrimFloat.is_nan x); reflexivity.
Qed.

(** No value is strictly above the median of the column that holds it
    alone. *)
Lemma nanmedian_singleton_ltb x : (pd.nanmedian [x] <? x)%float = false.
Proof.
  rewrite nanmedian_singleton. destruct (PrimFloat.is_nan x).
  - rewrite ltb_spec. reflexivity.
  - float_order.
Qed.

Lemma b2z_range b : 0 <= b2z b <= 1.
Proof. destruct b; cbn; lia. Qed.

(** * Facts on [predict] *)
Section PredictFacts.

Variable round : float -> Z -> float.
Variable format_f : nat -> float -> string.
Variable str : exn -> string.
Variable str_number : pd.cell -> string.
Variable model_info : list (string * json).

Local Abbreviation body := (predict_body round format_f str_number model_info).
Local Abbreviation serve := (predict round format_f str str_number).

(** Every response of [predict] is assembled from the classifier's answer
    for the one-row frame of the request. *)
Lemma predict_body_Ok m a r :
  body m a = Ok r ->
  exists p label,
    classified m a p label /\
    risk_level (risk_assessment r) = fst (risk_classification p) /\
    risk_color (risk_assessment r) = snd (risk_classification p) /\
    decision (recommendation r) = fst (recommendation_logic p label) /\
    confidence (risk_assessment r) = snd (recommendation_logic p label) /\
    binary_prediction (prediction r) = label /\
    default_probability (prediction r) = round p 4 /\
    risk_score (feature_analysis r) =
      RowOf.risk_score (median_interest_rate [a]) (median_num_open_acc [a]) a /\
    risk_factors_of (feature_analysis r) =
      {| employment_risk := negb (RowOf.employment_risk a =? 0);
         high_interest :=
           negb (RowOf.high_interest (median_interest_rate [a]) a =? 0);
         young_borrower := negb (RowOf.young_borrower a =? 0);
         multiple_delinquencies := negb (RowOf.multiple_delinquencies a =? 0);
         many_open_accounts :=
           negb (RowOf.many_open_accounts (median_num_open_acc [a]) a =? 0) |}.
Proof.
  unfold predict_body. rewrite add_feature_engineering_records.
  cbn [bind].
  destruct (Model.predict_proba m (engineered [a])) as [proba|] eqn:E1;
    cbn [bind]; [|discriminate].
  destruct (index proba 0) as [pred_proba|] eqn:E2; cbn [bind]; [|discriminate].
  destruct (index pred_proba 1) as [p|] eqn:E3; cbn [bind]; [|discriminate].
  destruct (Model.predict m (engineered [a])) as [labels|] eqn:E4;
    cbn [bind]; [|discriminate].
  destruct (index labels 0) as [label|] eqn:E5; cbn [bind]; [|discriminate].
  destruct (risk_classification p) as [level color] eqn:E6.
  destruct (recommendation_logic p label) as [reco conf] eqn:E7.
  rewrite !(at_row_engineered [a] 0 a _ eq_refl).
  cbn [find fst snd String.eqb Ascii.eqb Bool.eqb RowOf.cells bind py_float
       py_int].
  destruct (format_3f _ _) as [performance|]; cbn [bind]; [|discriminate].
  intros H. injection H as <-. exists p, label.
  cbn [risk_assessment recommendation prediction feature_analysis risk_level
       risk_color confidence decision binary_prediction default_probability
       risk_score risk_factors_of fst snd py_bool].
  repeat split; try reflexivity.
  all: try (exists proba, pred_proba, labels; repeat split; assumption).
  all: rewrite ?E6, ?E7; reflexivity.
Qed.

Lemma predict_Ok model a r :
  serve model model_info a = Ok r ->
  exists m, model = Some m /\ body m a = Ok r.
Proof.
  unfold predict. destruct model as [m|]; [|discriminate].
  intros H. exists m. split; [reflexivity|].
  destruct (body m a) as [r'|e]; cbn in H; [assumption | discriminate].
Qed.

Local Abbreviation loop := (batch_loop round format_f str str_number).
Local Abbreviation serve_batch :=
  (batch_predict round format_f str str_number).
Local Abbreviation item := (outcome round format_f str str_number).

(** The classifier's answer for a request is unique. *)
Lemma classified_unique m a p label p' label' :
  classified m a p label -> classified m a p' label' ->
  p = p' /\ label = label'.
Proof.
  intros (x1 & x2 & x3 & H1 & H2 & H3 & H4 & H5)
         (y1 & y2 & y3 & G1 & G2 & G3 & G4 & G5).
  rewrite H1 in G1. injection G1 as <-.
  rewrite H2 in G2. injection G2 as <-.
  rewrite H4 in G4. injection G4 as <-.
  split; congruence.
Qed.

(** The loop never touches the entries it was entered with ... *)
Lemma batch_loop_prefix model apps : forall i acc k x,
  nth_error acc k = Some x ->
  nth_error (loop model model_info i apps acc) k = Some x.
Proof.
  induction apps as [|app rest IH]; intros i acc k x H; cbn [batch_loop].
  - assumption.
  - assert (k < List.length acc)%nat by (apply nth_error_Some; congruence).
    destruct (predict _ _ _ _ _ _ app); apply IH;
      rewrite nth_error_app1; assumption.
Qed.

(** ... and appends one entry per application, in order. *)
Lemma batch_loop_nth model apps : forall i acc k a,
  nth_error apps k = Some a ->
  nth_error (loop model model_info i apps acc) (List.length acc + k) =
  Some (item model model_info (i + k) a).
Proof.
  induction apps as [|app rest IH]; intros i acc k a H.
  - destruct k; discriminate.
  - cbn [batch_loop]. destruct k as [|k]; cbn in H.
    + injection H as ->. rewrite !Nat.add_0_r. unfold outcome.
      destruct (predict _ _ _ _ _ _ a); apply batch_loop_prefix;
        rewrite nth_error_app2, Nat.sub_diag by lia; reflexivity.
    + replace (i + S k)%nat with (S i + k)%nat by lia.
      destruct (predict _ _ _ _ _ _ app);
        match goal with
        | |- nth_error (batch_loop _ _ _ _ _ _ _ _ (acc ++ [?x])%list) _ = _ =>
            replace (List.length acc + S k)%nat
              with (List.length (acc ++ [x]) + k)%nat
              by (rewrite length_app; cbn; lia)
        end; apply IH; assumption.
Qed.

Lemma batch_loop_length model apps : forall i acc,
  List.length (loop model model_info i apps acc)
  = (List.length acc + List.length apps)%nat.
Proof.
  induction apps as [|app rest IH]; intros i acc; cbn [batch_loop].
  - cbn. lia.
  - destruct (predict _ _ _ _ _ _ app); rewrite IH, length_app; cbn; lia.
Qed.

End PredictFacts.

Lemma count_filter cond l :
  count cond l = Z.of_nat (List.length (filter cond l)).
Proof.
  unfold count.
  assert (G : forall acc,
    fold_left (fun acc r => if cond r then acc + 1 else acc) l acc
    = acc + Z.of_nat (List.length (filter cond l))).
  { induction l as [|r l IH]; intros acc; cbn [fold_left filter].
    - cbn. lia.
    - rewrite IH. destruct (cond r); cbn [List.length]; lia. }
  apply G.
Qed.

Lemma filter_partition_length {A} (f g : A -> bool) l :
  (forall x, g x = negb (f x)) ->
  (List.length (filter f l) + List.length (filter g l))%nat = List.length l.
Proof.
  intros H. induction l as [|x l IH]; [reflexivity|].
  cbn [filter]. rewrite H. destruct (f x); cbn; lia.
Qed.

(** * Facts on the credit score bins *)

(** The bin of a score is fixed by which edges lie strictly below it, by
    whether it equals the first edge, and by whether it is a number. *)
Lemma cut1_credit_score x (nan at0 b0 b1 b2 b3 b4 : bool) :
  PrimFloat.is_nan x = nan ->
  (x =? Float64.of_Z 0)%float = at0 ->
  (Float64.of_Z 0 <? x)%float = b0 ->
  (Float64.of_Z 580 <? x)%float = b1 ->
  (Float64.of_Z 670 <? x)%float = b2 ->
  (Float64.of_Z 740 <? x)%float = b3 ->
  (Float64.of_Z 850 <? x)%float = b4 ->
  pd.cut1 (map Float64.of_Z credit_score_bins) credit_score_labels true x =
  let ids :=
    if at0 then 1%nat
    else if nan then 5%nat
    else (Nat.b2n b0 + Nat.b2n b1 + Nat.b2n b2 + Nat.b2n b3 + Nat.b2n b4)%nat in
  if (nan || Nat.eqb ids 5 || Nat.eqb ids 0)%bool then None
  else nth_error credit_score_labels (ids - 1).
Proof.
  intros <- <- <- <- <- <- <-.
  unfold pd.cut1, pd.searchsorted_left.
  cbn [credit_score_bins map hd andb List.length filter].
  destruct (Float64.of_Z 0 <? x)%float, (Float64.of_Z 580 <? x)%float,
    (Float64.of_Z 670 <? x)%float, (Float64.of_Z 740 <? x)%float,
    (Float64.of_Z 850 <? x)%float; reflexivity.
Qed.

Ltac credit_score_bin x nan at0 b0 b1 b2 b3 b4 :=
  unfold RowOf.credit_score_binned;
  rewrite (cut1_credit_score x nan at0 b0 b1 b2 b3 b4);
  [reflexivity | float_order ..].

Lemma credit_score_binned_bins a :
  let x := credit_score a in
  ((0 <=? x)%float = true -> (x <=? 580)%float = true ->
   RowOf.credit_score_binned a = Some "Poor") /\
  ((580 <? x)%float = true -> (x <=? 670)%float = true ->
   RowOf.credit_score_binned a = Some "Fair") /\
  ((670 <? x)%float = true -> (x <=? 740)%float = true ->
   RowOf.credit_score_binned a = Some "Good") /\
  ((740 <? x)%float = true -> (x <=? 850)%float = true ->
   RowOf.credit_score_binned a = Some "Excellent") /\
  ((x <? 0)%float = true -> RowOf.credit_score_binned a = None) /\
  ((850 <? x)%float = true -> RowOf.credit_score_binned a = None) /\
  (PrimFloat.is_nan x = true -> RowOf.credit_score_binned a = None).
Proof.
  intros x. subst x. repeat split; intros.
  - destruct (credit_score a =? Float64.of_Z 0)%float eqn:E.
    + credit_score_bin (credit_score a) false true false false false false false.
    + credit_score_bin (credit_score a) false false true false false false false.
  - credit_score_bin (credit_score a) false false true true false false false.
  - credit_score_bin (credit_score a) false false true true true false false.
  - credit_score_bin (credit_score a) false false true true true true false.
  - credit_score_bin (credit_score a) false false false false false false false.
  - credit_score_bin (credit_score a) false false true true true true true.
  - credit_score_bin (credit_score a) true false false false false false false.
Qed.

(** * Properties of the feature engineering *)

Lemma getitem_setitem_ne df c s k :
  c <> k -> pd.getitem (pd.setitem df c s) k = pd.getitem df k.
Proof.
  intros N. induction df as [|[k' s'] df IH]; cbn.
  - destruct (String.eqb_spec c k); [contradiction | reflexivity].
  - destruct (String.eqb_spec k' c) as [->|]; cbn.
    + destruct (String.eqb_spec c k); [contradiction | reflexivity].
    + rewrite IH. reflexivity.
Qed.

Lemma getitems_setitem_ne df c s ks :
  ~ In c ks -> pd.getitems (pd.setitem df c s) ks = pd.getitems df ks.
Proof.
  induction ks as [|k ks IH]; intros N; cbn [pd.getitems]; [reflexivity|].
  rewrite getitem_setitem_ne, IH; [reflexivity | |]; cbn in N;
    intuition congruence.
Qed.

(** The risk score column is the row-wise sum of the five risk factor
    columns of the engineered frame. *)
Lemma risk_score_recomputed records :
  (let* sub := pd.getitems (engineered records) risk_factors in
   pd.sum_axis1 sub)
  = pd.getitem (engineered records) "risk_score".
Proof.
  unfold engineered, DataFrame_of_records, engineered_columns. cbn.
  rewrite zip_with_zeros, !zip_with_map. reflexivity.
Qed.







(** C7: in every row of the engineered frame, [risk_score] is the number of
    true flags among exactly [employment_risk], [high_interest],
    [young_borrower], [multiple_delinquencies] and [many_open_accounts]
    (each column holds 0 or 1), hence an integer from 0 to 5; and the sum
    that fills [risk_score] is the same whatever any other column holds,
    [experienced_worker] and [high_credit_score] in particular. *)
Theorem C7_risk_score_counts_five_factors (records : list LoanApplication) :
  exists df,
    add_feature_engineering (DataFrame_of_records records) = Ok df /\
    (forall i a, nth_error records i = Some a ->
       exists er hi yb md mo : bool,
         pd.at_row df "employment_risk" i = Ok (pd.CInt (b2z er)) /\
         pd.at_row df "high_interest" i = Ok (pd.CInt (b2z hi)) /\
         pd.at_row df "young_borrower" i = Ok (pd.CInt (b2z yb)) /\
         pd.at_row df "multiple_delinquencies" i = Ok (pd.CInt (b2z md)) /\
         pd.at_row df "many_open_accounts" i = Ok (pd.CInt (b2z mo)) /\
         pd.at_row df "risk_score" i =
           Ok (pd.CInt (b2z er + b2z hi + b2z yb + b2z md + b2z mo)) /\
         0 <= b2z er + b2z hi + b2z yb + b2z md + b2z mo <= 5) /\
    (forall c s, ~ In c risk_factors ->
       (let* sub := pd.getitems (pd.setitem df c s) risk_factors in
        pd.sum_axis1 sub)
       = pd.getitem df "risk_score") /\
    ~ In "experienced_worker" risk_factors /\
    ~ In "high_credit_score" risk_factors.
Proof.
  exists (engineered records). split; [|split; [|split; [|split]]].
  - apply add_feature_engineering_records.
  - intros i a H. rewrite !(at_row_engineered records i a _ H).
    cbn [find fst snd String.eqb Ascii.eqb Bool.eqb RowOf.cells].
    unfold RowOf.risk_score, RowOf.employment_risk, RowOf.high_interest,
      RowOf.young_borrower, RowOf.multiple_delinquencies, RowOf.many_open_accounts.
    do 5 eexists. repeat (split; [reflexivity|]).
    repeat match goal with
    | |- context [b2z ?b] =>
        lazymatch goal with
        | H : 0 <= b2z b <= 1 |- _ => fail
        | _ => pose proof (b2z_range b)
        end
    end. lia.
  - intros c s N. rewrite getitems_setitem_ne by assumption.
    apply risk_score_recomputed.
  - cbn. intuition discriminate.
  - cbn. intuition discriminate.
Qed.

Lemma C7_risk_score_counts_five_factors_witness :
  nth_error [Fixtures.low_risk_app; Fixtures.cheap_loan_app] 0
    = Some Fixtures.low_risk_app /\
  exists df,
    add_feature_engineering
      (DataFrame_of_records [Fixtures.low_risk_app; Fixtures.cheap_loan_app])
      = Ok df /\
    pd.at_row df "risk_score" 0 = Ok (pd.CInt 2) /\
    (let* sub :=
       pd.getitems (pd.setitem df "experienced_worker" (pd.SInt [7; 7]))
         risk_factors in
     pd.sum_axis1 sub) = Ok (pd.SInt [2; 0]).
Proof.
  split; [reflexivity|].
  destruct (C7_risk_score_counts_five_factors
              [Fixtures.low_risk_app; Fixtures.cheap_loan_app])
    as (df & H1 & H2 & H3 & H4 & _).
  exists df. split; [exact H1|]. split.
  - destruct (H2 0%nat Fixtures.low_risk_app eq_refl)
      as (er & hi & yb & md & mo & _ & _ & _ & _ & _ & H5 & _).
    rewrite add_feature_engineering_records in H1. injection H1 as <-.
    vm_compute. reflexivity.
  - rewrite (H3 "experienced_worker" (pd.SInt [7; 7]) H4).
    rewrite add_feature_engineering_records in H1. injection H1 as <-.
    vm_compute. reflexivity.
Defined.

(** C8 (amended): [credit_score_binned] is Poor on [[0,580]] (left edge
    included), Fair on [(580,670]], Good on [(670,740]] and Excellent on
    [(740,850]]; a score below 0 or above 850 (or a NaN) falls in no bin
    and the band is missing.  The column is the same in train.py. *)
Theorem C8_credit_score_bands (records : list LoanApplication) :
  exists df,
    add_feature_engineering (DataFrame_of_records records) = Ok df /\
    (exists df',
       train.add_feature_engineering (DataFrame_of_records records)
         = Ok df' /\
       pd.getitem df' "credit_score_binned"
         = pd.getitem df "credit_score_binned") /\
    forall i a, nth_error records i = Some a ->
      exists band,
        pd.at_row df "credit_score_binned" i = Ok (pd.CCat band) /\
        let x := credit_score a in
        ((0 <=? x)%float = true -> (x <=? 580)%float = true ->
         band = Some "Poor") /\
        ((580 <? x)%float = true -> (x <=? 670)%float = true ->
         band = Some "Fair") /\
        ((670 <? x)%float = true -> (x <=? 740)%float = true ->
         band = Some "Good") /\
        ((740 <? x)%float = true -> (x <=? 850)%float = true ->
         band = Some "Excellent") /\
        ((x <? 0)%float = true -> band = None) /\
        ((850 <? x)%float = true -> band = None) /\
        (PrimFloat.is_nan x = true -> band = None).
Proof.
  exists (engineered records). split; [|split].
  - apply add_feature_engineering_records.
  - apply train_credit_score_binned.
  - intros i a H. exists (RowOf.credit_score_binned a). split.
    + rewrite (at_row_engineered records i a _ H). reflexivity.
    + apply credit_score_binned_bins.
Qed.

Lemma C8_credit_score_bands_witness :
  nth_error [Fixtures.low_risk_app] 0 = Some Fixtures.low_risk_app /\
  (740 <? credit_score Fixtures.low_risk_app)%float = true /\
  (credit_score Fixtures.low_risk_app <=? 850)%float = true /\
  exists df,
    add_feature_engineering (DataFrame_of_records [Fixtures.low_risk_app])
      = Ok df /\
    pd.at_row df "credit_score_binned" 0 = Ok (pd.CCat (Some "Excellent")).
Proof.
  split; [reflexivity|]. split; [reflexivity|]. split; [reflexivity|].
  destruct (C8_credit_score_bands [Fixtures.low_risk_app])
    as (df & H1 & _ & H2).
  destruct (H2 0%nat Fixtures.low_risk_app eq_refl)
    as (band & H3 & _ & _ & _ & H4 & _).
  exists df. split; [exact H1|].
  rewrite H3, (H4 eq_refl eq_refl). reflexivity.
Defined.

(** C8, as stated, fails: a credit score of 900 is not put in the
    Excellent bin, and a credit score of -5 is not put in the Poor bin;
    both are left without a band. *)
Lemma C8_counterexample :
  ~ (forall a df,
       add_feature_engineering (DataFrame_of_records [a]) = Ok df ->
       ((850 <? credit_score a)%float = true ->
        pd.at_row df "credit_score_binned" 0
          = Ok (pd.CCat (Some "Excellent"))) /\
       ((credit_score a <? 0)%float = true ->
        pd.at_row df "credit_score_binned" 0 = Ok (pd.CCat (Some "Poor")))) /\
  (exists df,
     add_feature_engineering
       (DataFrame_of_records [Fixtures.applicant 20000 36 7.5 900 3]) = Ok df /\
     pd.at_row df "credit_score_binned" 0 = Ok (pd.CCat None)) /\
  (exists df,
     add_feature_engineering
       (DataFrame_of_records [Fixtures.applicant 20000 36 7.5 (-5) 3]) = Ok df /\
     pd.at_row df "credit_score_binned" 0 = Ok (pd.CCat None)).
Proof.
  split; [|split].
  - intros H.
    destruct (H (Fixtures.applicant 20000 36 7.5 900 3) _
                (add_feature_engineering_records _)) as [H1 _].
    specialize (H1 eq_refl). vm_compute in H1. discriminate.
  - eexists. split; [apply add_feature_engineering_records|].
    vm_compute. reflexivity.
  - eexists. split; [apply add_feature_engineering_records|].
    vm_compute. reflexivity.
Qed.

(** * Properties of the risk policy and of the endpoints *)

Section Serving.

Variable round : float -> Z -> float.
Variable format_f : nat -> float -> string.
Variable str : exn -> string.
Variable str_number : pd.cell -> string.
Variable model_info : list (string * json).

Local Abbreviation serve := (predict round format_f str str_number).
Local Abbreviation serve_batch :=
  (batch_predict round format_f str str_number).
Local Abbreviation item := (outcome round format_f str str_number).

(** A response of [predict] carries the risk level, the decision and the
    confidence that the policy gives for the unrounded probability and the
    label answered by the classifier. *)
Lemma predict_policy model a r p label :
  serve model model_info a = Ok r ->
  (exists m, model = Some m /\ classified m a p label) ->
  risk_level (risk_assessment r) = fst (risk_classification p) /\
  decision (recommendation r) = fst (recommendation_logic p label) /\
  confidence (risk_assessment r) = snd (recommendation_logic p label).
Proof.
  intros H (m & -> & C).
  destruct (predict_Ok _ _ _ _ _ _ _ _ H) as (m' & E & B).
  injection E as <-.
  destruct (predict_body_Ok _ _ _ _ _ _ _ B)
    as (p' & label' & C' & H1 & _ & H2 & H3 & _).
  destruct (classified_unique _ _ _ _ _ _ C C') as [-> ->].
  auto.
Qed.

(** C5: for a probability [p] in [[0,1]] the risk level is Very High when
    [p >= 0.8], High when [0.6 <= p < 0.8], Medium when [0.4 <= p < 0.6],
    Low when [0.2 <= p < 0.4] and Very Low when [0 <= p < 0.2]; so 0.8 is
    Very High, 0.7999 High, 0.4 Medium, 0.2 Low and 0.0 Very Low; and this
    is the level [predict] reports for the probability the classifier
    answered. *)
Theorem C5_risk_tiers :
  (forall p : float,
     (0 <=? p)%float = true -> (p <=? 1)%float = true ->
     let level := fst (risk_classification p) in
     ((0.8 <=? p)%float = true -> level = "Very High") /\
     ((0.6 <=? p)%float = true -> (p <? 0.8)%float = true -> level = "High") /\
     ((0.4 <=? p)%float = true -> (p <? 0.6)%float = true ->
      level = "Medium") /\
     ((0.2 <=? p)%float = true -> (p <? 0.4)%float = true -> level = "Low") /\
     ((0 <=? p)%float = true -> (p <? 0.2)%float = true ->
      level = "Very Low")) /\
  (fst (risk_classification 0.8) = "Very High" /\
   fst (risk_classification 0.7999) = "High" /\
   fst (risk_classification 0.4) = "Medium" /\
   fst (risk_classification 0.2) = "Low" /\
   fst (risk_classification 0.0) = "Very Low") /\
  (forall model a r p label,
     serve model model_info a = Ok r ->
     (exists m, model = Some m /\ classified m a p label) ->
     risk_level (risk_assessment r) = fst (risk_classification p)).
Proof.
  split; [|split].
  - intros p H0 H1 level. subst level. unfold risk_classification.
    repeat split; intros; repeat decide_comparison; reflexivity.
  - repeat split; reflexivity.
  - intros model a r p label H C.
    apply (predict_policy model a r p label H C).
Qed.


(** C6: the label decides the recommendation before the probability does.
    For [p] in [[0,1]]: label 1 gives Reject, with confidence High when
    [p > 0.7] and Medium otherwise (so [p = 0.15] with label 1 is Reject,
    Medium); label 0 gives Approve, High when [p < 0.1], Approve with
    monitoring, Medium when [0.1 <= p < 0.3], and Further review required,
    Low when [p >= 0.3]; and these are the decision and confidence that
    [predict] reports. *)
Theorem C6_recommendation :
  (forall (p : float) (label : Z),
     (0 <=? p)%float = true -> (p <=? 1)%float = true ->
     let reco := recommendation_logic p label in
     (label = 1 ->
      fst reco = "Reject" /\
      ((0.7 <? p)%float = true -> snd reco = "High") /\
      ((0.7 <? p)%float = false -> snd reco = "Medium")) /\
     (label = 0 ->
      ((p <? 0.1)%float = true -> reco = ("Approve", "High")) /\
      ((0.1 <=? p)%float = true -> (p <? 0.3)%float = true ->
       reco = ("Approve with monitoring", "Medium")) /\
      ((0.3 <=? p)%float = true ->
       reco = ("Further review required", "Low")))) /\
  recommendation_logic 0.15 1 = ("Reject", "Medium") /\
  (forall model a r p label,
     serve model model_info a = Ok r ->
     (exists m, model = Some m /\ classified m a p label) ->
     decision (recommendation r) = fst (recommendation_logic p label) /\
     confidence (risk_assessment r) = snd (recommendation_logic p label)).
Proof.
  split; [|split].
  - intros p label H0 H1 reco. subst reco. unfold recommendation_logic.
    split; intros ->; cbn [Z.eqb Pos.eqb fst snd].
    + repeat split; intros H; rewrite H; reflexivity.
    + repeat split; intros; repeat decide_comparison; reflexivity.
  - reflexivity.
  - intros model a r p label H C.
    apply (predict_policy model a r p label H C).
Qed.

(** C10: in every response of [predict], [high_interest] and
    [many_open_accounts] are false, since each compares the request's own
    value strictly with the median of the one-row frame built from that
    request; hence [risk_score] is at most 3. *)
Theorem C10_single_record_flags model a r :
  serve model model_info a = Ok r ->
  high_interest (risk_factors_of (feature_analysis r)) = false /\
  many_open_accounts (risk_factors_of (feature_analysis r)) = false /\
  0 <= risk_score (feature_analysis r) <= 3.
Proof.
  intros H.
  destruct (predict_Ok _ _ _ _ _ _ _ _ H) as (m & _ & B).
  destruct (predict_body_Ok _ _ _ _ _ _ _ B)
    as (p & label & _ & _ & _ & _ & _ & _ & _ & S & F).
  rewrite S, F. cbn [high_interest many_open_accounts].
  unfold RowOf.risk_score, RowOf.high_interest, RowOf.many_open_accounts,
    median_interest_rate, median_num_open_acc. cbn [map].
  rewrite !nanmedian_singleton_ltb. cbn [b2z Z.eqb negb].
  unfold RowOf.employment_risk, RowOf.young_borrower, RowOf.multiple_delinquencies.
  pose proof (b2z_range (employment_length a <? 2)).
  pose proof (b2z_range (age a <? 30)).
  pose proof (b2z_range (1 <? delinquency_2yrs a)).
  repeat split; lia.
Qed.

(** The entries of a batch, their count and their order. *)
Lemma batch_predict_Ok model apps resp :
  serve_batch model model_info apps = Ok resp ->
  resp =
  {| summary :=
       {| total_applications := Z.of_nat (List.length apps);
          successful_predictions :=
            count (fun r => String.eqb (status r) "success") (results resp);
          errors :=
            count (fun r => String.eqb (status r) "error") (results resp);
          high_risk_count := count is_high_risk (results resp) |};
     results := batch_loop round format_f str str_number model model_info
                  0 apps [] |}.
Proof.
  unfold batch_predict. destruct model as [m|]; [|discriminate].
  destruct (100 <? Z.of_nat (List.length apps)); [discriminate|].
  cbn [try_except]. intros H. injection H as <-. reflexivity.
Qed.

(** C2 (amended): with a model loaded, a batch of at most 100 applications
    yields exactly one entry per application, in input order; the entry at
    position [i] (counted from 0) is the response of [predict] for
    application [i], or, when [predict] raises, an error entry with the
    message of the exception; either way the entry is tagged with
    [application_id = i + 1], and the entries of all later applications
    are still produced. *)
Theorem C2_batch_outcomes m apps :
  (List.length apps <= 100)%nat ->
  exists resp,
    serve_batch (Some m) model_info apps = Ok resp /\
    List.length (results resp) = List.length apps /\
    forall i a, nth_error apps i = Some a ->
      nth_error (results resp) i =
      Some match serve (Some m) model_info a with
           | Ok result => Success (Z.of_nat i + 1) result
           | Raise e => Error (Z.of_nat i + 1) (str e)
           end.
Proof.
  intros L. unfold batch_predict.
  destruct (100 <? Z.of_nat (List.length apps)) eqn:E;
    [apply Z.ltb_lt in E; lia|].
  cbn [try_except]. eexists. split; [reflexivity|].
  cbn [results]. split.
  - rewrite batch_loop_length. reflexivity.
  - intros i a H.
    apply (batch_loop_nth round format_f str str_number model_info
             (Some m) apps 0%nat [] i a H).
Qed.

(** C4 (amended): with a model loaded, a batch of more than 100
    applications is rejected with the error "Maximum 100 applications per
    batch" (status 400), whatever the classifier and the applications are:
    nothing is scored and no entry is produced; with no model loaded every
    batch is rejected with "Model not loaded on server" (status 500)
    instead; a batch of at most 100 applications is never rejected with
    the batch-size error. *)
Theorem C4_batch_size_limit :
  (forall m apps, (100 < List.length apps)%nat ->
     serve_batch (Some m) model_info apps = Raise too_large) /\
  (forall apps, serve_batch None model_info apps = Raise not_loaded) /\
  (forall model apps, (List.length apps <= 100)%nat ->
     serve_batch model model_info apps <> Raise too_large).
Proof.
  repeat split.
  - intros m apps L. unfold batch_predict.
    destruct (100 <? Z.of_nat (List.length apps)) eqn:E; [reflexivity|].
    apply Z.ltb_ge in E. lia.
  - intros model apps L. unfold batch_predict.
    destruct model as [m|]; [|discriminate].
    destruct (100 <? Z.of_nat (List.length apps)) eqn:E;
      [apply Z.ltb_lt in E; lia | discriminate].
Qed.

(** C9: the summary of a batch response is computed from its entries:
    [total_applications] is the number of applications received,
    [successful_predictions] the number of success entries, [errors] the
    number of error entries (the two add up to the total), and
    [high_risk_count] the number of success entries whose risk level is
    High or Very High. *)
Theorem C9_summary_counts model apps resp :
  serve_batch model model_info apps = Ok resp ->
  let s := summary resp in
  total_applications s = Z.of_nat (List.length apps) /\
  successful_predictions s
    = Z.of_nat (List.length (filter is_success (results resp))) /\
  errors s = Z.of_nat (List.length (filter is_error (results resp))) /\
  successful_predictions s + errors s = total_applications s /\
  high_risk_count s
    = Z.of_nat (List.length (filter high_or_very_high (results resp))).
Proof.
  intros H s. subst s. pose proof (batch_predict_Ok _ _ _ H) as E.
  assert (L : List.length (results resp) = List.length apps).
  { rewrite E. cbn [results]. rewrite batch_loop_length. reflexivity. }
  assert (S : successful_predictions (summary resp)
              = Z.of_nat (List.length (filter is_success (results resp)))).
  { rewrite E at 1. cbn [summary successful_predictions].
    rewrite count_filter. do 2 f_equal. apply filter_ext.
    intros []; reflexivity. }
  assert (R : errors (summary resp)
              = Z.of_nat (List.length (filter is_error (results resp)))).
  { rewrite E at 1. cbn [summary errors].
    rewrite count_filter. do 2 f_equal. apply filter_ext.
    intros []; reflexivity. }
  assert (T : total_applications (summary resp)
              = Z.of_nat (List.length apps)).
  { rewrite E. reflexivity. }
  repeat split; try assumption.
  - rewrite S, R, T, <- L, <- Nat2Z.inj_add. f_equal.
    apply filter_partition_length. intros []; reflexivity.
  - rewrite E at 1. cbn [summary high_risk_count].
    rewrite count_filter. do 2 f_equal. apply filter_ext.
    intros [id res|id e]; cbn; [|reflexivity].
    rewrite orb_false_r. reflexivity.
Qed.

End Serving.

(** * The properties on the fixtures *)

Lemma classified_toy_model p label :
  classified (Fixtures.toy_model p label) Fixtures.low_risk_app p label.
Proof.
  unfold classified. do 3 eexists. repeat split; reflexivity.
Qed.

Lemma C5_risk_tiers_witness :
  ((0 <=? 0.5)%float = true /\ (0.5 <=? 1)%float = true /\
   (0.4 <=? 0.5)%float = true /\ (0.5 <? 0.6)%float = true /\
   fst (risk_classification 0.5) = "Medium") /\
  exists r,
    Fixtures.serve (Some (Fixtures.toy_model 0.5 0)) Fixtures.low_risk_app
      = Ok r /\
    risk_level (risk_assessment r) = "Medium".
Proof.
  destruct (C5_risk_tiers Fixtures.no_round Fixtures.no_format
              Fixtures.message Fixtures.no_str []) as (T & _ & P).
  split.
  - do 4 (split; [reflexivity|]).
    destruct (T 0.5%float eq_refl eq_refl) as (_ & _ & M & _).
    apply M; reflexivity.
  - destruct (Fixtures.serve (Some (Fixtures.toy_model 0.5 0))
                Fixtures.low_risk_app) as [r|e] eqn:E;
      [|vm_compute in E; discriminate].
    exists r. split; [reflexivity|].
    rewrite (P _ _ _ 0.5%float 0 E
               (ex_intro _ _ (conj eq_refl (classified_toy_model _ _)))).
    reflexivity.
Defined.

Lemma C6_recommendation_witness :
  ((0 <=? 0.15)%float = true /\ (0.15 <=? 1)%float = true /\
   (0.7 <? 0.15)%float = false /\
   recommendation_logic 0.15 1 = ("Reject", "Medium")) /\
  exists r,
    Fixtures.serve (Some (Fixtures.toy_model 0.15 1)) Fixtures.low_risk_app
      = Ok r /\
    decision (recommendation r) = "Reject" /\
    confidence (risk_assessment r) = "Medium".
Proof.
  destruct (C6_recommendation Fixtures.no_round Fixtures.no_format
              Fixtures.message Fixtures.no_str []) as (T & _ & P).
  split.
  - do 3 (split; [reflexivity|]).
    destruct (T 0.15%float 1 eq_refl eq_refl) as (R & _).
    destruct (R eq_refl) as (D & _ & M).
    specialize (M eq_refl).
    destruct (recommendation_logic 0.15 1); cbn in *; congruence.
  - destruct (Fixtures.serve (Some (Fixtures.toy_model 0.15 1))
                Fixtures.low_risk_app) as [r|e] eqn:E;
      [|vm_compute in E; discriminate].
    exists r. split; [reflexivity|].
    destruct (P _ _ _ 0.15%float 1 E
                (ex_intro _ _ (conj eq_refl (classified_toy_model _ _))))
      as [D C].
    rewrite D, C. split; reflexivity.
Defined.

Lemma C10_single_record_flags_witness :
  exists r,
    Fixtures.serve (Some (Fixtures.lenient_model 0.05 0))
      (Fixtures.applicant 20000 36 29.9 800 40) = Ok r /\
    high_interest (risk_factors_of (feature_analysis r)) = false /\
    many_open_accounts (risk_factors_of (feature_analysis r)) = false /\
    0 <= risk_score (feature_analysis r) <= 3.
Proof.
  destruct (Fixtures.serve (Some (Fixtures.lenient_model 0.05 0))
              (Fixtures.applicant 20000 36 29.9 800 40)) as [r|e] eqn:E;
    [|vm_compute in E; discriminate].
  exists r. split; [reflexivity|].
  exact (C10_single_record_flags Fixtures.no_round Fixtures.no_format
           Fixtures.message Fixtures.no_str [] _ _ _ E).
Defined.

Lemma C2_batch_outcomes_witness :
  (List.length Fixtures.mixed_batch <= 100)%nat /\
  exists resp r,
    Fixtures.serve_batch (Some (Fixtures.toy_model 0.7 1)) Fixtures.mixed_batch
      = Ok resp /\
    List.length (results resp) = 3%nat /\
    nth_error (results resp) 1
      = Some (Error 2 "Prediction error: Input contains infinity") /\
    nth_error (results resp) 2 = Some (Success 3 r).
Proof.
  assert (L : (List.length Fixtures.mixed_batch <= 100)%nat) by (cbn; lia).
  split; [exact L|].
  destruct (C2_batch_outcomes Fixtures.no_round Fixtures.no_format
              Fixtures.message Fixtures.no_str []
              (Fixtures.toy_model 0.7 1) Fixtures.mixed_batch L)
    as (resp & E & N & A).
  pose proof (A 1%nat Fixtures.zero_loan_app eq_refl) as A1.
  pose proof (A 2%nat Fixtures.low_risk_app eq_refl) as A2.
  destruct (predict _ _ _ _ _ _ Fixtures.low_risk_app) as [r|e] eqn:P;
    [|vm_compute in P; discriminate].
  exists resp, r. repeat split; assumption.
Defined.

(** C2, as stated, fails on the tag: the error entry of the application at
    position 0 carries [application_id = 1], not the 0-based index. *)
Lemma C2_counterexample :
  ~ (forall round format_f str str_number model_info m apps i a e,
       (List.length apps <= 100)%nat ->
       nth_error apps i = Some a ->
       predict round format_f str str_number (Some m) model_info a
         = Raise e ->
       exists resp,
         batch_predict round format_f str str_number (Some m) model_info apps
           = Ok resp /\
         nth_error (results resp) i = Some (Error (Z.of_nat i) (str e))).
Proof.
  intros H.
  destruct (H Fixtures.no_round Fixtures.no_format Fixtures.message
              Fixtures.no_str [] (Fixtures.toy_model 0.7 1)
              [Fixtures.zero_loan_app] 0%nat Fixtures.zero_loan_app
              (HTTPException 400 "Prediction error: Input contains infinity"))
    as (resp & E & N).
  - cbn. lia.
  - reflexivity.
  - vm_compute. reflexivity.
  - vm_compute in E. injection E as <-. vm_compute in N. discriminate.
Qed.

Lemma C4_batch_size_limit_witness :
  (100 < List.length (repeat Fixtures.low_risk_app 101))%nat /\
  Fixtures.serve_batch (Some (Fixtures.toy_model 0.7 1))
    (repeat Fixtures.low_risk_app 101) = Raise too_large /\
  (List.length Fixtures.mixed_batch <= 100)%nat /\
  Fixtures.serve_batch (Some (Fixtures.toy_model 0.7 1)) Fixtures.mixed_batch
    <> Raise too_large.
Proof.
  destruct (C4_batch_size_limit Fixtures.no_round Fixtures.no_format
              Fixtures.message Fixtures.no_str []) as (A & _ & B).
  assert (L : (100 < List.length (repeat Fixtures.low_risk_app 101))%nat)
    by (rewrite repeat_length; lia).
  assert (L' : (List.length Fixtures.mixed_batch <= 100)%nat) by (cbn; lia).
  split; [exact L|]. split; [apply A, L|]. split; [exact L'|].
  apply B, L'.
Defined.

(** C4, as stated, fails when no model is loaded: a batch of 101
    applications is then rejected with "Model not loaded on server"
    (status 500), not with the batch-size error. *)
Lemma C4_counterexample :
  ~ (forall round format_f str str_number model model_info apps,
       (100 < List.length apps)%nat ->
       batch_predict round format_f str str_number model model_info apps
         = Raise too_large).
Proof.
  intros H.
  specialize (H Fixtures.no_round Fixtures.no_format Fixtures.message
                Fixtures.no_str None [] (repeat Fixtures.low_risk_app 101)).
  rewrite repeat_length in H. specialize (H ltac:(lia)).
  discriminate.
Qed.

Lemma C9_summary_counts_witness :
  exists resp,
    Fixtures.serve_batch (Some (Fixtures.toy_model 0.7 1)) Fixtures.mixed_batch
      = Ok resp /\
    total_applications (summary resp) = 3 /\
    successful_predictions (summary resp) = 2 /\
    errors (summary resp) = 1 /\
    high_risk_count (summary resp) = 2.
Proof.
  destruct (Fixtures.serve_batch (Some (Fixtures.toy_model 0.7 1)) Fixtures.mixed_batch)
    as [resp|e] eqn:E; [|vm_compute in E; discriminate].
  exists resp. split; [reflexivity|].
  destruct (C9_summary_counts Fixtures.no_round Fixtures.no_format
              Fixtures.message Fixtures.no_str [] _ _ _ E)
    as (T & S & R & _ & G).
  vm_compute in E. injection E as <-.
  repeat split; assumption.
Defined.

(** * Further properties of the feature engineering *)

(** X1: the engineered frame keeps the twelve raw columns as they are and
    in place, appends the twelve derived columns in a fixed order, and
    has one value per record in every column. *)
Theorem feature_engineering_shape (records : list LoanApplication) :
  exists df,
    add_feature_engineering (DataFrame_of_records records) = Ok df /\
    firstn 12 df = DataFrame_of_records records /\
    pd.columns df
      = (pd.columns (DataFrame_of_records records) ++ columns_added)%list /\
    Forall (fun kv => pd.len (snd kv) = List.length records) df.
Proof.
  exists (engineered records). split; [|split; [|split]].
  - apply add_feature_engineering_records.
  - reflexivity.
  - reflexivity.
  - unfold engineered, DataFrame_of_records, engineered_columns.
    cbn [app]. repeat constructor; cbn [snd pd.len]; apply length_map.
Qed.

(** X2: engineering an engineered frame again changes nothing: every
    derived column is recomputed to the same values and stays in place. *)
Theorem feature_engineering_idempotent records df :
  add_feature_engineering (DataFrame_of_records records) = Ok df ->
  add_feature_engineering df = Ok df.
Proof.
  rewrite add_feature_engineering_records. intros H. injection H as <-.
  unfold engineered, add_feature_engineering, DataFrame_of_records,
    engineered_columns, median_interest_rate, median_num_open_acc. cbn.
  rewrite !map_map, zip_with_zeros, !zip_with_map. reflexivity.
Qed.

Lemma feature_engineering_idempotent_witness :
  exists df,
    add_feature_engineering (DataFrame_of_records Fixtures.mixed_batch)
      = Ok df /\
    add_feature_engineering df = Ok df.
Proof.
  destruct (add_feature_engineering (DataFrame_of_records Fixtures.mixed_batch))
    as [df|e] eqn:E; [|vm_compute in E; discriminate].
  exists df. split; [reflexivity|].
  exact (feature_engineering_idempotent Fixtures.mixed_batch df E).
Defined.

(** X3: of the raw columns, the function needs exactly nine: without any
    one of them it raises [KeyError] for that column, whereas without
    [home_ownership], [purpose] or [dti] it derives the same columns. *)
Theorem feature_engineering_columns_read (records : list LoanApplication) :
  (forall c, In c columns_read ->
     add_feature_engineering (pd.drop (DataFrame_of_records records) c)
       = Raise (KeyError c)) /\
  (forall c, In c columns_not_read ->
     add_feature_engineering (pd.drop (DataFrame_of_records records) c)
       = Ok (pd.drop (engineered records) c)).
Proof.
  split; intros c H; cbn in H;
    repeat (destruct H as [<-|H]; [|]); try contradiction;
    unfold add_feature_engineering, engineered, DataFrame_of_records,
      engineered_columns, median_interest_rate, median_num_open_acc;
    cbn; rewrite ?map_map, ?zip_with_zeros, ?zip_with_map; reflexivity.
Qed.

Lemma feature_engineering_columns_read_witness :
  In "term_months" columns_read /\
  add_feature_engineering
    (pd.drop (DataFrame_of_records [Fixtures.low_risk_app]) "term_months")
    = Raise (KeyError "term_months").
Proof.
  assert (H : In "term_months" columns_read) by (cbn; tauto).
  split; [exact H|].
  exact (proj1 (feature_engineering_columns_read [Fixtures.low_risk_app])
           "term_months" H).
Defined.

(** X4: apart from [high_interest], [many_open_accounts] and
    [risk_score], every value of a record's row is computed from that
    record alone: the record has the same values in any two frames,
    whatever the other rows are. *)
Theorem feature_engineering_row_local records1 records2 i j a :
  nth_error records1 i = Some a ->
  nth_error records2 j = Some a ->
  exists df1 df2,
    add_feature_engineering (DataFrame_of_records records1) = Ok df1 /\
    add_feature_engineering (DataFrame_of_records records2) = Ok df2 /\
    forall c, In c row_local_columns ->
      pd.at_row df1 c i = pd.at_row df2 c j /\
      exists v, pd.at_row df1 c i = Ok v.
Proof.
  intros H1 H2. exists (engineered records1), (engineered records2).
  split; [apply add_feature_engineering_records|].
  split; [apply add_feature_engineering_records|].
  intros c H.
  rewrite (at_row_engineered records1 i a c H1),
    (at_row_engineered records2 j a c H2).
  cbn in H. repeat (destruct H as [<-|H]; [split; [reflexivity | eexists; reflexivity]|]).
  contradiction.
Qed.

Lemma feature_engineering_row_local_witness :
  nth_error [Fixtures.low_risk_app] 0 = Some Fixtures.low_risk_app /\
  nth_error Fixtures.mixed_batch 2 = Some Fixtures.low_risk_app /\
  exists df1 df2,
    add_feature_engineering (DataFrame_of_records [Fixtures.low_risk_app])
      = Ok df1 /\
    add_feature_engineering (DataFrame_of_records Fixtures.mixed_batch)
      = Ok df2 /\
    pd.at_row df1 "monthly_payment" 0 = pd.at_row df2 "monthly_payment" 2.
Proof.
  split; [reflexivity|]. split; [reflexivity|].
  destruct (feature_engineering_row_local [Fixtures.low_risk_app]
              Fixtures.mixed_batch 0 2 Fixtures.low_risk_app eq_refl eq_refl)
    as (df1 & df2 & E1 & E2 & H).
  exists df1, df2. split; [exact E1|]. split; [exact E2|].
  apply H. cbn. tauto.
Defined.

(** X5: the derived flags of a row are consistent with each other and
    with the credit band: [employment_risk] and [experienced_worker] are
    never both 1, and [high_credit_score] is 1 only where the band is
    Excellent or missing (never Poor, Fair or Good). *)
Theorem feature_flags_consistent records i a :
  nth_error records i = Some a ->
  exists df (er ew hc : bool) band,
    add_feature_engineering (DataFrame_of_records records) = Ok df /\
    pd.at_row df "employment_risk" i = Ok (pd.CInt (b2z er)) /\
    pd.at_row df "experienced_worker" i = Ok (pd.CInt (b2z ew)) /\
    pd.at_row df "high_credit_score" i = Ok (pd.CInt (b2z hc)) /\
    pd.at_row df "credit_score_binned" i = Ok (pd.CCat band) /\
    (er && ew = false)%bool /\
    (hc = true -> band = Some "Excellent" \/ band = None).
Proof.
  intros H. exists (engineered records).
  exists (employment_length a <? 2), (10 <? employment_length a),
    (Float64.of_Z 750 <? credit_score a)%float, (RowOf.credit_score_binned a).
  split; [apply add_feature_engineering_records|].
  rewrite !(at_row_engineered records i a _ H).
  do 4 (split; [reflexivity|]). split.
  - destruct (Z.ltb_spec (employment_length a) 2),
      (Z.ltb_spec 10 (employment_length a)); try reflexivity. lia.
  - intros C.
    destruct (credit_score_binned_bins a) as (_ & _ & _ & E & _ & M & _).
    cbv zeta in E, M.
    generalize dependent (credit_score a). intros x C E M.
    destruct (x <=? 850)%float eqn:L.
    + left. apply E; [float_order | reflexivity].
    + right. apply M. float_order.
Qed.

Lemma feature_flags_consistent_witness :
  nth_error [Fixtures.low_risk_app] 0 = Some Fixtures.low_risk_app /\
  exists df,
    add_feature_engineering (DataFrame_of_records [Fixtures.low_risk_app])
      = Ok df /\
    pd.at_row df "high_credit_score" 0 = Ok (pd.CInt 1) /\
    pd.at_row df "credit_score_binned" 0 = Ok (pd.CCat (Some "Excellent")).
Proof.
  split; [reflexivity|].
  destruct (feature_flags_consistent [Fixtures.low_risk_app] 0
              Fixtures.low_risk_app eq_refl)
    as (df & er & ew & hc & band & E & _ & _ & H1 & H2 & _ & H3).
  exists df. split; [exact E|].
  rewrite add_feature_engineering_records in E. injection E as <-.
  split; vm_compute; reflexivity.
Defined.

Lemma div_zero_by_number x y :
  (x =? 0)%float = true -> PrimFloat.is_nan y = false ->
  (y =? 0)%float = false -> PrimFloat.is_infinity y = false ->
  (x / y =? 0)%float = true.
Proof.
  intros Hx Hn Hy Hi.
  unfold PrimFloat.is_nan, PrimFloat.is_infinity in *.
  rewrite !eqb_spec, ?abs_spec, ?div_spec in *.
  change (Prim2SF 0%float) with (S754_zero false) in *.
  change (Prim2SF infinity) with (S754_infinity false) in *.
  unfold SF64div.
  destruct (Prim2SF x) as [sx|sx| |sx mx ex]; cbn in Hx; try discriminate;
    try (destruct sx; discriminate).
  destruct (Prim2SF y) as [sy|sy| |sy my ey]; cbn in *; try discriminate.
  reflexivity.
Qed.

(** X6: a zero [annual_income] raises nothing either: the income is
    divided by 12 to a zero and [payment_to_income_ratio] is then an
    infinity or NaN. *)
Theorem zero_income_not_finite records i a :
  nth_error records i = Some a ->
  (annual_income a =? 0)%float = true ->
  exists df x,
    add_feature_engineering (DataFrame_of_records records) = Ok df /\
    pd.at_row df "payment_to_income_ratio" i = Ok (pd.CFloat x) /\
    PrimFloat.is_finite x = false.
Proof.
  intros H Z. exists (engineered records). eexists.
  split; [apply add_feature_engineering_records|].
  rewrite (at_row_engineered records i a _ H).
  split; [reflexivity|]. unfold RowOf.payment_to_income_ratio.
  apply Float64Facts.div_zero_not_finite.
  apply div_zero_by_number; [exact Z | reflexivity ..].
Qed.

Lemma zero_income_not_finite_witness :
  let a := {| age := 40; annual_income := 0; employment_length := 0;
              home_ownership := "RENT"; purpose := "other";
              loan_amount := 1000; term_months := 12; interest_rate := 9;
              dti := 0; credit_score := 600; delinquency_2yrs := 0;
              num_open_acc := 1 |} in
  (annual_income a =? 0)%float = true /\
  exists df x,
    add_feature_engineering (DataFrame_of_records [a]) = Ok df /\
    pd.at_row df "payment_to_income_ratio" 0 = Ok (pd.CFloat x) /\
    PrimFloat.is_finite x = false.
Proof.
  intros a. split; [reflexivity|].
  exact (zero_income_not_finite [a] 0 a eq_refl eq_refl).
Defined.

(** X7: the feature engineering of enhanced_api.py extends that of
    train.py: the frame train.py derives is the first fifteen columns of
    the enhanced frame. *)
Theorem enhanced_extends_train (records : list LoanApplication) :
  exists df_train df,
    train.add_feature_engineering (DataFrame_of_records records)
      = Ok df_train /\
    add_feature_engineering (DataFrame_of_records records) = Ok df /\
    df_train = firstn 15 df.
Proof.
  eexists. exists (engineered records).
  split; [reflexivity|]. split; [apply add_feature_engineering_records|].
  unfold engineered, DataFrame_of_records, engineered_columns. cbn.
  rewrite !map_map, !zip_with_map. reflexivity.
Qed.

(** * Further properties of the risk policy *)

Ltac split_conditionals :=
  repeat match goal with
  | |- context [if ?b then _ else _] => destruct b eqn:?
  end.

Lemma leb_trans x y z :
  (x <=? y)%float = true -> (y <=? z)%float = true -> (x <=? z)%float = true.
Proof. intros H1 H2. float_order. Qed.

(** X8: the risk level never decreases when the probability increases. *)
Theorem risk_level_monotone p q :
  (p <=? q)%float = true ->
  (level_rank (fst (risk_classification p))
   <= level_rank (fst (risk_classification q)))%nat.
Proof.
  intros H. unfold risk_classification.
  destruct (0.8 <=? p)%float eqn:P8.
  { rewrite (leb_trans _ _ _ P8 H). cbn. lia. }
  destruct (0.6 <=? p)%float eqn:P6.
  { rewrite (leb_trans _ _ _ P6 H). split_conditionals; cbn; lia. }
  destruct (0.4 <=? p)%float eqn:P4.
  { rewrite (leb_trans _ _ _ P4 H). split_conditionals; cbn; lia. }
  destruct (0.2 <=? p)%float eqn:P2.
  { rewrite (leb_trans _ _ _ P2 H). split_conditionals; cbn; lia. }
  split_conditionals; cbn; lia.
Qed.

Lemma risk_level_monotone_witness :
  (0.35 <=? 0.65)%float = true /\
  (level_rank (fst (risk_classification 0.35))
   <= level_rank (fst (risk_classification 0.65)))%nat.
Proof.
  split; [reflexivity|]. apply risk_level_monotone. reflexivity.
Defined.

(** X9: the policy rejects no probability.  A NaN is classified Very Low
    and, with label 0, sent to further review; a negative probability is
    Very Low and approved with high confidence; a probability above 1 is
    Very High. *)
Theorem risk_policy_outside_unit_interval p :
  (PrimFloat.is_nan p = true ->
   risk_classification p = ("Very Low", "green") /\
   recommendation_logic p 0 = ("Further review required", "Low") /\
   recommendation_logic p 1 = ("Reject", "Medium")) /\
  ((p <? 0)%float = true ->
   risk_classification p = ("Very Low", "green") /\
   recommendation_logic p 0 = ("Approve", "High")) /\
  ((1 <? p)%float = true ->
   risk_classification p = ("Very High", "red") /\
   recommendation_logic p 0 = ("Further review required", "Low") /\
   recommendation_logic p 1 = ("Reject", "High")).
Proof.
  unfold risk_classification, recommendation_logic. cbn [Z.eqb Pos.eqb].
  repeat split; intros; repeat decide_comparison; reflexivity.
Qed.

Lemma risk_policy_outside_unit_interval_witness :
  PrimFloat.is_nan PrimFloat.nan = true /\
  (1 <? 1.5)%float = true /\
  risk_classification PrimFloat.nan = ("Very Low", "green") /\
  recommendation_logic PrimFloat.nan 0 = ("Further review required", "Low") /\
  risk_classification 1.5 = ("Very High", "red").
Proof.
  split; [reflexivity|]. split; [reflexivity|].
  destruct (risk_policy_outside_unit_interval PrimFloat.nan)
    as ((A & B & _) & _).
  { reflexivity. }
  destruct (risk_policy_outside_unit_interval 1.5%float) as (_ & _ & C).
  destruct (C eq_refl) as (D & _).
  repeat split; assumption.
Defined.

(** X10: decision and risk level agree with each other.  With a label
    other than 1, Approve is given only at level Very Low, Approve with
    monitoring only at Very Low or Low, and a level of Medium or above
    always gives Further review required; with label 1, confidence High
    is given only at level High or Very High. *)
Theorem decision_consistent_with_level p label :
  let level := fst (risk_classification p) in
  let reco := recommendation_logic p label in
  (label <> 1 ->
   (fst reco = "Approve" -> level = "Very Low") /\
   (fst reco = "Approve with monitoring" ->
    level = "Very Low" \/ level = "Low") /\
   ((2 <= level_rank level)%nat -> fst reco = "Further review required")) /\
  (label = 1 ->
   snd reco = "High" -> level = "High" \/ level = "Very High").
Proof.
  intros level reco. subst level reco.
  unfold risk_classification, recommendation_logic. split.
  - intros N. apply Z.eqb_neq in N. rewrite N.
    destruct (p <? 0.1)%float eqn:A; [|destruct (p <? 0.3)%float eqn:B].
    + repeat decide_comparison. cbn. repeat split; intros; try discriminate;
        try reflexivity; lia.
    + assert ((0.8 <=? p)%float = false) as -> by float_order.
      assert ((0.6 <=? p)%float = false) as -> by float_order.
      assert ((0.4 <=? p)%float = false) as -> by float_order.
      destruct (0.2 <=? p)%float; cbn; repeat split; intros;
        try discriminate; auto; lia.
    + cbn [fst]. repeat split; intros; try discriminate; reflexivity.
  - intros ->. cbn [Z.eqb Pos.eqb snd].
    destruct (0.7 <? p)%float eqn:A; [|discriminate].
    intros _. assert ((0.6 <=? p)%float = true) as E by float_order.
    destruct (0.8 <=? p)%float; [right; reflexivity|].
    rewrite E. left. reflexivity.
Qed.

Lemma decision_consistent_with_level_witness :
  0 <> 1 /\
  fst (recommendation_logic 0.25 0) = "Approve with monitoring" /\
  (fst (risk_classification 0.25) = "Very Low"
   \/ fst (risk_classification 0.25) = "Low").
Proof.
  split; [discriminate|]. split; [reflexivity|].
  destruct (decision_consistent_with_level 0.25 0) as ((_ & H & _) & _).
  { discriminate. }
  apply H. reflexivity.
Defined.

(** * Further properties of the endpoints *)

Section MoreServing.

Variable round : float -> Z -> float.
Variable format_f : nat -> float -> string.
Variable str : exn -> string.
Variable str_number : pd.cell -> string.
Variable model_info : list (string * json).

Local Abbreviation body := (predict_body round format_f str_number model_info).
Local Abbreviation serve := (predict round format_f str str_number).
Local Abbreviation serve_batch :=
  (batch_predict round format_f str str_number).
Local Abbreviation item := (outcome round format_f str str_number).
Local Abbreviation items := (outcomes round format_f str str_number).
Local Abbreviation best_score :=
  (dict_get model_info "best_score" (JNumber 0.946)).

(** The [try] block of [predict] fails only on the classifier's side or on
    the rendering of [best_score]; otherwise it returns. *)
Lemma predict_body_cases m a :
  match body m a with
  | Ok _ =>
      exists p label s,
        classified m a p label /\ format_3f format_f best_score = Ok s
  | Raise e =>
      Model.predict_proba m (engineered [a]) = Raise e \/
      (exists proba,
         Model.predict_proba m (engineered [a]) = Ok proba /\
         (index proba 0 = Raise e \/
          exists pred_proba,
            index proba 0 = Ok pred_proba /\ index pred_proba 1 = Raise e)) \/
      Model.predict m (engineered [a]) = Raise e \/
      (exists labels,
         Model.predict m (engineered [a]) = Ok labels /\
         index labels 0 = Raise e) \/
      (exists p label,
         classified m a p label /\ format_3f format_f best_score = Raise e)
  end.
Proof.
  unfold predict_body. rewrite add_feature_engineering_records.
  cbn [bind].
  destruct (Model.predict_proba m (engineered [a])) as [proba|] eqn:E1;
    cbn [bind]; [|auto].
  destruct (index proba 0) as [pred_proba|] eqn:E2; cbn [bind];
    [|right; left; eauto].
  destruct (index pred_proba 1) as [p|] eqn:E3; cbn [bind];
    [|right; left; eauto 6].
  destruct (Model.predict m (engineered [a])) as [labels|] eqn:E4;
    cbn [bind]; [|auto].
  destruct (index labels 0) as [label|] eqn:E5; cbn [bind];
    [|right; right; right; left; eauto].
  assert (C : classified m a p label).
  { exists proba, pred_proba, labels. repeat split; assumption. }
  destruct (risk_classification p) as [level color].
  destruct (recommendation_logic p label) as [reco conf].
  rewrite !(at_row_engineered [a] 0 a _ eq_refl).
  cbn [find fst snd String.eqb Ascii.eqb Bool.eqb RowOf.cells bind py_float
       py_int].
  destruct (format_3f format_f best_score) as [s|e] eqn:E6; cbn [bind].
  - eauto.
  - right; right; right; right. eauto.
Qed.



End MoreServing.

Lemma filter_length_le {A} (f : A -> bool) l :
  (List.length (filter f l) <= List.length l)%nat.
Proof. induction l as [|x l IH]; cbn; [|destruct (f x); cbn]; lia. Qed.

Lemma filter_length_incl {A} (f g : A -> bool) l :
  (forall x, f x = true -> g x = true) ->
  (List.length (filter f l) <= List.length (filter g l))%nat.
Proof.
  intros H. induction l as [|x l IH]; cbn; [lia|].
  destruct (f x) eqn:F.
  - rewrite (H x F). cbn. lia.
  - destruct (g x); cbn; lia.
Qed.

Lemma filter_length_permutation {A} (f : A -> bool) l l' :
  Permutation l l' -> List.length (filter f l) = List.length (filter f l').
Proof.
  induction 1 as [|x l l' _ IH|x y l|l l' l'' _ IH1 _ IH2]; cbn.
  - reflexivity.
  - destruct (f x); cbn; congruence.
  - destruct (f x), (f y); reflexivity.
  - congruence.
Qed.

Section BatchSummary.

Variable round : float -> Z -> float.
Variable format_f : nat -> float -> string.
Variable str : exn -> string.
Variable str_number : pd.cell -> string.

Local Abbreviation serve := (predict round format_f str str_number).
Local Abbreviation serve_batch :=
  (batch_predict round format_f str str_number).
Local Abbreviation loop := (batch_loop round format_f str str_number).
Local Abbreviation item := (outcome round format_f str str_number).
Local Abbreviation items := (outcomes round format_f str str_number).

Lemma batch_loop_outcomes model model_info apps : forall i acc,
  loop model model_info i apps acc
  = (acc ++ items model model_info i apps)%list.
Proof.
  induction apps as [|a rest IH]; intros i acc; cbn [batch_loop outcomes].
  - rewrite app_nil_r. reflexivity.
  - unfold outcome at 1.
    destruct (predict _ _ _ _ _ _ a); rewrite IH, <- app_assoc; reflexivity.
Qed.

Lemma filter_outcomes model model_info (P : BatchItem -> bool)
    (Q : result PredictResponse -> bool) apps :
  (forall i a, P (item model model_info i a) = Q (serve model model_info a)) ->
  forall i,
    List.length (filter P (items model model_info i apps))
    = List.length (filter (fun a => Q (serve model model_info a)) apps).
Proof.
  intros H. induction apps as [|a rest IH]; intros i; cbn [outcomes filter].
  - reflexivity.
  - rewrite H. destruct (Q _); cbn [List.length]; rewrite IH; reflexivity.
Qed.

Lemma batch_summary model model_info apps resp :
  serve_batch model model_info apps = Ok resp ->
  (List.length apps <= 100)%nat /\
  total_applications (summary resp) = Z.of_nat (List.length apps) /\
  successful_predictions (summary resp)
    = Z.of_nat (List.length
        (filter (fun a => is_Ok (serve model model_info a)) apps)) /\
  errors (summary resp)
    = Z.of_nat (List.length
        (filter (fun a => negb (is_Ok (serve model model_info a))) apps)) /\
  high_risk_count (summary resp)
    = Z.of_nat (List.length
        (filter (fun a => scored_high (serve model model_info a)) apps)).
Proof.
  unfold batch_predict. destruct model as [m|]; [|discriminate].
  destruct (100 <? Z.of_nat (List.length apps)) eqn:L; [discriminate|].
  apply Z.ltb_ge in L. cbn [try_except]. intros H. injection H as <-.
  cbn [summary results total_applications successful_predictions errors
       high_risk_count].
  rewrite !count_filter, batch_loop_outcomes. cbn [app].
  split; [lia|]. split; [reflexivity|].
  split; [|split]; f_equal.
  - apply (filter_outcomes (Some m) model_info _ is_Ok).
    intros i a. unfold outcome. destruct (predict _ _ _ _ _ _ a); reflexivity.
  - apply (filter_outcomes (Some m) model_info _ (fun r => negb (is_Ok r))).
    intros i a. unfold outcome. destruct (predict _ _ _ _ _ _ a); reflexivity.
  - apply (filter_outcomes (Some m) model_info _ scored_high).
    intros i a. unfold outcome.
    destruct (predict _ _ _ _ _ _ a); cbn; [|reflexivity].
    rewrite orb_false_r. reflexivity.
Qed.

(** X13: the summary of a batch counts what [predict] does for each
    application on its own: [successful_predictions] is the number of
    applications for which [predict] returns, [errors] the number for
    which it raises, [high_risk_count] the number for which it returns
    level High or Very High; hence
    [0 <= high_risk_count <= successful_predictions <= total <= 100]. *)
Theorem summary_counts_applications model model_info apps resp :
  serve_batch model model_info apps = Ok resp ->
  let s := summary resp in
  successful_predictions s
    = Z.of_nat (List.length
        (filter (fun a => is_Ok (serve model model_info a)) apps)) /\
  errors s
    = Z.of_nat (List.length
        (filter (fun a => negb (is_Ok (serve model model_info a))) apps)) /\
  high_risk_count s
    = Z.of_nat (List.length
        (filter (fun a => scored_high (serve model model_info a)) apps)) /\
  0 <= high_risk_count s <= successful_predictions s /\
  successful_predictions s <= total_applications s <= 100.
Proof.
  intros H s. subst s.
  destruct (batch_summary _ _ _ _ H) as (L & T & S & E & G).
  rewrite T, S, E, G. repeat split; try lia.
  - apply inj_le, filter_length_incl.
    intros a. destruct (predict _ _ _ _ _ _ a); [reflexivity | discriminate].
  - apply inj_le, filter_length_le.
Qed.

(** X14: the summary does not depend on the order of the applications:
    two batches that are permutations of each other have the same
    summary. *)
Theorem summary_permutation_invariant model model_info apps apps' resp resp' :
  Permutation apps apps' ->
  serve_batch model model_info apps = Ok resp ->
  serve_batch model model_info apps' = Ok resp' ->
  summary resp = summary resp'.
Proof.
  intros P H H'.
  destruct (batch_summary _ _ _ _ H) as (_ & T & S & E & G).
  destruct (batch_summary _ _ _ _ H') as (_ & T' & S' & E' & G').
  destruct (summary resp) as [t s e g], (summary resp') as [t' s' e' g'].
  cbn in *. subst.
  rewrite (Permutation_length P),
    (filter_length_permutation (fun a => is_Ok (serve model model_info a)) _ _ P),
    (filter_length_permutation
       (fun a => negb (is_Ok (serve model model_info a))) _ _ P),
    (filter_length_permutation
       (fun a => scored_high (serve model model_info a)) _ _ P).
  reflexivity.
Qed.

(** X15: when [tuning_results.json] cannot be read, [load_model] keeps the
    model but sets [best_score] to the string "unknown", which [predict]
    cannot render: from then on every prediction fails with status 400,
    and every entry of every batch is an error. *)
Theorem fallback_model_info_fails_predictions m cause model model_info :
  load_model (Ok m) (Raise cause) = (model, model_info) ->
  (forall a, exists e,
     serve model model_info a
       = Raise (HTTPException 400 ("Prediction error: " ++ str e))) /\
  (forall apps, (List.length apps <= 100)%nat ->
     exists resp,
       serve_batch model model_info apps = Ok resp /\
       successful_predictions (summary resp) = 0 /\
       errors (summary resp) = Z.of_nat (List.length apps) /\
       high_risk_count (summary resp) = 0).
Proof.
  intros H. injection H as <- <-.
  set (info := [("best_model", JString "tuned_model");
                ("best_score", JString "unknown")]).
  assert (F : forall a, exists e,
            serve (Some m) info a
            = Raise (HTTPException 400 ("Prediction error: " ++ str e))).
  { intros a. unfold predict.
    pose proof (predict_body_cases round format_f str_number info m a) as C.
    destruct (predict_body _ _ _ _ m a) as [r|e]; cbn [try_except].
    - destruct C as (p & label & s & _ & C). discriminate.
    - eauto. }
  split; [exact F|].
  intros apps L.
  destruct (serve_batch (Some m) info apps) as [resp|e] eqn:B.
  - exists resp. split; [reflexivity|].
    destruct (batch_summary _ _ _ _ B) as (_ & T & S & E & G).
    rewrite S, E, G.
    assert (N : forall Q : result PredictResponse -> bool,
              (forall e, Q (Raise e) = false) ->
              filter (fun a => Q (serve (Some m) info a)) apps = []).
    { intros Q HQ. clear -F HQ. induction apps as [|a rest IH]; [reflexivity|].
      cbn [filter]. destruct (F a) as [e ->]. rewrite HQ. exact IH. }
    assert (Y : filter (fun a => negb (is_Ok (serve (Some m) info a))) apps
                = apps).
    { clear -F. induction apps as [|a rest IH]; [reflexivity|].
      cbn [filter]. destruct (F a) as [e ->]. cbn [is_Ok negb].
      f_equal. exact IH. }
    rewrite (N is_Ok), (N scored_high), Y by reflexivity.
    repeat split.
  - exfalso. unfold batch_predict in B.
    destruct (100 <? Z.of_nat (List.length apps)) eqn:L';
      [apply Z.ltb_lt in L'; lia | discriminate].
Qed.

End BatchSummary.

Section Startup.

Variable round : float -> Z -> float.
Variable format_f : nat -> float -> string.
Variable str : exn -> string.
Variable str_number : pd.cell -> string.
Variable MODEL_PATH : string.

Local Abbreviation serve := (predict round format_f str str_number).
Local Abbreviation serve_batch :=
  (batch_predict round format_f str str_number).

(** X16: after [load_model], [/health] reports [model_loaded = true]
    exactly when the model file loaded and [tuning_results.json] did not
    parse to something other than an object; when it reports [false],
    [/predict], [/batch-predict] and [/model-info] all answer with status
    500, and when it reports [true] [/model-info] answers. *)
Theorem health_reflects_startup loaded tuning_results model model_info :
  load_model loaded tuning_results = (model, model_info) ->
  let loaded_flag :=
    HealthResponse.model_loaded (health MODEL_PATH model model_info) in
  (loaded_flag = true <->
   (exists m, loaded = Ok m) /\ tuning_results <> Ok JNotObject) /\
  (loaded_flag = false ->
   model_info = [] /\
   (forall a, serve model model_info a = Raise not_loaded) /\
   (forall apps, serve_batch model model_info apps = Raise not_loaded) /\
   model_info_endpoint model model_info
     = Raise (HTTPException 500 "Model not loaded")) /\
  (loaded_flag = true ->
   exists r,
     model_info_endpoint model model_info = Ok r /\
     ModelInfoResponse.model_details r = model_info).
Proof.
  intros H flag. subst flag. unfold load_model in H.
  destruct loaded as [m|e]; [destruct tuning_results as [[d|]|e]|];
    injection H as <- <-; cbn.
  all: repeat split; intros; try discriminate; try reflexivity;
    try (eexists; split; reflexivity); try (eexists; reflexivity).
  all: try match goal with
       | H : _ /\ _ |- _ => destruct H as [[? ?] ?]; try discriminate;
                            try contradiction
       end.
  all: try congruence.
Qed.

End Startup.

(** * predict_api/app.py against enhanced_api.py *)

(** X17: the first service has three levels: High from 0.7, Medium from
    0.4, Low below (and for a NaN).  Against the five levels of the
    enhanced service, for the same probability: Very High is High here,
    Medium is Medium, Low and Very Low are exactly Low, and the enhanced
    High is split at 0.7 between Medium and High. *)
Theorem basic_levels_against_enhanced p :
  let basic := predict_api.risk_classification p in
  let enhanced := fst (risk_classification p) in
  (basic = "High" <-> (0.7 <=? p)%float = true) /\
  (basic = "Medium" <->
   (0.4 <=? p)%float = true /\ (0.7 <=? p)%float = false) /\
  (basic = "Low" <-> (0.4 <=? p)%float = false) /\
  (enhanced = "Very High" -> basic = "High") /\
  (enhanced = "High" ->
   basic = if (0.7 <=? p)%float then "High" else "Medium") /\
  (enhanced = "Medium" -> basic = "Medium") /\
  (basic = "Low" <-> enhanced = "Low" \/ enhanced = "Very Low").
Proof.
  intros basic enhanced. subst basic enhanced.
  unfold predict_api.risk_classification, risk_classification.
  destruct (0.8 <=? p)%float eqn:E8.
  { assert ((0.7 <=? p)%float = true) as -> by float_order.
    assert ((0.4 <=? p)%float = true) as F4 by float_order.
    cbn. intuition (try discriminate; try congruence). }
  destruct (0.7 <=? p)%float eqn:E7.
  { assert ((0.6 <=? p)%float = true) as -> by float_order.
    assert ((0.4 <=? p)%float = true) as F4 by float_order.
    cbn. intuition (try discriminate; try congruence). }
  destruct (0.6 <=? p)%float eqn:E6.
  { assert ((0.4 <=? p)%float = true) as F4 by float_order. rewrite F4.
    cbn. intuition (try discriminate; try congruence). }
  destruct (0.4 <=? p)%float eqn:E4.
  { cbn. intuition (try discriminate; try congruence). }
  assert ((0.2 <=? p)%float = true \/ (0.2 <=? p)%float = false) as [-> | ->]
    by (destruct (0.2 <=? p)%float; auto);
    cbn; intuition (try discriminate; try congruence).
Qed.

Section BothServices.

Variable round : float -> Z -> float.
Variable format_f : nat -> float -> string.
Variable str : exn -> string.
Variable str_number : pd.cell -> string.
Variable model_info : list (string * json).

Local Abbreviation serve := (predict round format_f str str_number).
Local Abbreviation serve_basic := (predict_api.predict round str).

(** The first service returns exactly when the classifier answers. *)
Lemma basic_predict_Ok model a r :
  serve_basic model a = Ok r <->
  exists m p label,
    model = Some m /\ classified m a p label /\
    r = {| predict_api.default_probability := round p 4;
           predict_api.binary_prediction := label;
           predict_api.risk_level := predict_api.risk_classification p;
           predict_api.recommendation :=
             if label =? 0 then "Approve" else "Reject" |}.
Proof.
  unfold predict_api.predict, predict_api.predict_body, classified.
  rewrite add_feature_engineering_records. cbn [bind]. split.
  - destruct model as [m|]; [|discriminate].
    destruct (Model.predict_proba m (engineered [a])) as [proba|] eqn:E1;
      cbn [bind try_except]; [|discriminate].
    destruct (index proba 0) as [pred_proba|] eqn:E2;
      cbn [bind try_except]; [|discriminate].
    destruct (index pred_proba 1) as [p|] eqn:E3;
      cbn [bind try_except]; [|discriminate].
    destruct (Model.predict m (engineered [a])) as [labels|] eqn:E4;
      cbn [bind try_except]; [|discriminate].
    destruct (index labels 0) as [label|] eqn:E5;
      cbn [bind try_except]; [|discriminate].
    intros H. injection H as <-. exists m, p, label.
    split; [reflexivity|]. split; [|reflexivity].
    exists proba, pred_proba, labels. auto.
  - intros (m & p & label & -> & (proba & pred_proba & labels & E1 & E2 & E3
                                   & E4 & E5) & ->).
    rewrite E1. cbn [bind]. rewrite E2. cbn [bind]. rewrite E3. cbn [bind].
    rewrite E4. cbn [bind]. rewrite E5. reflexivity.
Qed.

(** X18: whenever the enhanced service returns a response, the first
    service returns one too for the same model and application, with the
    same rounded probability and the same label; a Reject of the enhanced
    service is a Reject of the first, and an Approve of the first is never
    a Reject of the enhanced. *)
Theorem services_agree model a r :
  serve model model_info a = Ok r ->
  exists r',
    serve_basic model a = Ok r' /\
    predict_api.default_probability r' = default_probability (prediction r) /\
    predict_api.binary_prediction r' = binary_prediction (prediction r) /\
    (decision (recommendation r) = "Reject" ->
     predict_api.recommendation r' = "Reject") /\
    (predict_api.recommendation r' = "Approve" ->
     decision (recommendation r) <> "Reject").
Proof.
  intros H.
  destruct (predict_Ok _ _ _ _ _ _ _ _ H) as (m & -> & B).
  destruct (predict_body_Ok _ _ _ _ _ _ _ B)
    as (p & label & C & _ & _ & D & _ & L & P & _).
  eexists. split.
  { apply basic_predict_Ok. exists m, p, label. auto. }
  cbn [predict_api.default_probability predict_api.binary_prediction
       predict_api.recommendation].
  rewrite D, L, P. unfold recommendation_logic.
  repeat split.
  - destruct (Z.eqb_spec label 1) as [->|N]; [reflexivity|].
    destruct (label =? 0); [|reflexivity].
    destruct (p <? 0.1)%float; [discriminate|].
    destruct (p <? 0.3)%float; discriminate.
  - destruct (Z.eqb_spec label 0) as [->|N]; [|discriminate].
    cbn [Z.eqb]. intros _.
    destruct (p <? 0.1)%float; [discriminate|].
    destruct (p <? 0.3)%float; discriminate.
Qed.

End BothServices.

(** * final_validation.py *)

(** X19: the scenario check of final_validation.py uses the five levels
    of the service, and accepts a scenario according to the probability
    alone: expected Very Low or Low passes below 0.6 (or on a NaN),
    expected Medium passes from 0.2 to below 0.8, expected High passes
    from 0.4, and an expected Very High never passes. *)
Theorem scenario_validation_ranges p :
  let level := final_validation.risk_assessment p in
  level = fst (risk_classification p) /\
  final_validation.validation "Very Low" level = negb (0.6 <=? p)%float /\
  final_validation.validation "Low" level = negb (0.6 <=? p)%float /\
  final_validation.validation "Medium" level
    = ((0.2 <=? p)%float && negb (0.8 <=? p)%float)%bool /\
  final_validation.validation "High" level = (0.4 <=? p)%float /\
  final_validation.validation "Very High" level = false.
Proof.
  intros level. subst level.
  unfold final_validation.risk_assessment, risk_classification.
  destruct (0.8 <=? p)%float eqn:E8.
  { assert ((0.6 <=? p)%float = true) as -> by float_order.
    assert ((0.4 <=? p)%float = true) as -> by float_order.
    assert ((0.2 <=? p)%float = true) as -> by float_order.
    repeat split. }
  destruct (0.6 <=? p)%float eqn:E6.
  { assert ((0.4 <=? p)%float = true) as -> by float_order.
    assert ((0.2 <=? p)%float = true) as -> by float_order.
    repeat split. }
  destruct (0.4 <=? p)%float eqn:E4.
  { assert ((0.2 <=? p)%float = true) as -> by float_order.
    repeat split. }
  destruct (0.2 <=? p)%float eqn:E2; repeat split.
Qed.

(** * advanced_train.py *)

Lemma track_best_spec models : forall bn bs,
  PrimFloat.is_nan bs = false ->
  forall n' s', advanced_train.track_best models bn bs = (n', s') ->
  (bs <=? s')%float = true /\
  (forall n s, In (n, s) models -> (s' <? s)%float = false) /\
  ((n' = bn /\ s' = bs) \/
   exists name before after,
     n' = Some name /\ models = (before ++ (name, s') :: after)%list /\
     (bs <? s')%float = true /\
     (forall n s, In (n, s) before ->
        (s <? s')%float = true \/ PrimFloat.is_nan s = true)).
Proof.
  induction models as [|[mn r] rest IH]; intros bn bs N n' s' H;
    cbn [advanced_train.track_best] in H.
  - injection H as <- <-. split; [float_order|]. split; [contradiction|].
    left. split; reflexivity.
  - destruct (bs <? r)%float eqn:L.
    + assert (Nr : PrimFloat.is_nan r = false) by float_order.
      destruct (IH _ _ Nr _ _ H) as (A & B & C).
      split; [float_order|]. split.
      * intros n s [E|I]; [injection E as <- <-; float_order | eauto].
      * right. destruct C as [[-> ->]|(name & before & after & -> & -> & D & F)].
        -- exists mn, [], rest. repeat split; try assumption. contradiction.
        -- exists name, ((mn, r) :: before), after.
           repeat split; [float_order|].
           intros n s [E|I]; [injection E as <- <-; left; float_order | eauto].
    + destruct (IH _ _ N _ _ H) as (A & B & C).
      split; [assumption|]. split.
      * intros n s [E|I]; [injection E as <- <-; float_order | eauto].
      * destruct C as [C|(name & before & after & -> & -> & D & F)];
          [left; exact C|].
        right. exists name, ((mn, r) :: before), after.
        repeat split; [assumption|].
        intros n s [E|I]; [injection E as <- <-|eauto].
        destruct (PrimFloat.is_nan r) eqn:Nr; [right; reflexivity|].
        left. float_order.
Qed.

(** X20: the training script retains the first model whose test ROC-AUC
    is the highest, provided it is above 0: every model trained before it
    has a strictly lower score (or a NaN), no model has a strictly higher
    one; when no model scores above 0, no model is retained and the
    summary fails on [best_model_name.upper()]. *)
Theorem best_model_first_maximum (models : list (string * float)) :
  match advanced_train.best_model_report models with
  | advanced_train.Best name score =>
      (0 <? score)%float = true /\
      exists before after,
        models = (before ++ (name, score) :: after)%list /\
        (forall n s, In (n, s) before ->
           (s <? score)%float = true \/ PrimFloat.is_nan s = true) /\
        (forall n s, In (n, s) models -> (score <? s)%float = false)
  | advanced_train.AttributeError =>
      forall n s, In (n, s) models -> (0 <? s)%float = false
  end.
Proof.
  unfold advanced_train.best_model_report.
  destruct (advanced_train.track_best models None 0) as [n' s'] eqn:H.
  destruct (track_best_spec models None 0%float eq_refl _ _ H)
    as (A & B & C).
  destruct n' as [name|].
  - destruct C as [[C _]|(name' & before & after & E & -> & D & F)];
      [discriminate|].
    injection E as <-. split; [assumption|].
    exists before, after. auto.
  - destruct C as [[_ ->]|(name' & _ & _ & E & _)]; [assumption|discriminate].
Qed.

(** * feature_analysis.py *)

Lemma analysis_add_feature_engineering_records records :
  feature_analysis.add_feature_engineering (DataFrame_of_records records)
  = Ok (analysis_frame records).
Proof.
  unfold analysis_frame, feature_analysis.add_feature_engineering,
    DataFrame_of_records. cbn.
  rewrite ?map_map, ?zip_with_map, ?map_map, ?zip_with_map. reflexivity.
Qed.

Lemma row_analysis_frame records i a :
  nth_error records i = Some a ->
  pd.row (analysis_frame records) i = Ok (AnalysisRow.cells a).
Proof.
  intros H. unfold analysis_frame, DataFrame_of_records.
  cbn [pd.row app].
  rewrite !(iloc_SInt _ _ _ _ H), !(iloc_SFloat _ _ _ _ H),
    !(iloc_SStr _ _ _ _ H), !(iloc_SCat _ _ _ _ H).
  reflexivity.
Qed.

(** X21: every value that feature_analysis.py derives for a row is
    computed from that row alone ([many_accounts] compares with the
    constant 10, no median is involved): a record has the same row in any
    two frames that hold it. *)
Theorem analysis_features_row_local records1 records2 i j a :
  nth_error records1 i = Some a ->
  nth_error records2 j = Some a ->
  exists df1 df2 r,
    feature_analysis.add_feature_engineering (DataFrame_of_records records1)
      = Ok df1 /\
    feature_analysis.add_feature_engineering (DataFrame_of_records records2)
      = Ok df2 /\
    pd.row df1 i = Ok r /\ pd.row df2 j = Ok r /\
    pd.at_row df1 "many_accounts" i
      = Ok (pd.CInt (b2z (10 <? num_open_acc a))).
Proof.
  intros H1 H2.
  exists (analysis_frame records1), (analysis_frame records2),
    (AnalysisRow.cells a).
  split; [apply analysis_add_feature_engineering_records|].
  split; [apply analysis_add_feature_engineering_records|].
  split; [apply row_analysis_frame, H1|].
  split; [apply row_analysis_frame, H2|].
  rewrite (at_row_of_row _ _ _ _ (row_analysis_frame _ _ _ H1)).
  reflexivity.
Qed.

Lemma analysis_features_row_local_witness :
  nth_error [Fixtures.low_risk_app] 0 = Some Fixtures.low_risk_app /\
  nth_error Fixtures.mixed_batch 2 = Some Fixtures.low_risk_app /\
  exists df1 df2,
    feature_analysis.add_feature_engineering
      (DataFrame_of_records [Fixtures.low_risk_app]) = Ok df1 /\
    feature_analysis.add_feature_engineering
      (DataFrame_of_records Fixtures.mixed_batch) = Ok df2 /\
    pd.row df1 0 = pd.row df2 2.
Proof.
  split; [reflexivity|]. split; [reflexivity|].
  destruct (analysis_features_row_local [Fixtures.low_risk_app]
              Fixtures.mixed_batch 0 2 Fixtures.low_risk_app eq_refl eq_refl)
    as (df1 & df2 & r & E1 & E2 & R1 & R2 & _).
  exists df1, df2. split; [exact E1|]. split; [exact E2|]. congruence.
Defined.

Lemma cut1_five_edges z0 z1 z2 z3 z4 labels x (nan at0 b0 b1 b2 b3 b4 : bool) :
  PrimFloat.is_nan x = nan ->
  (x =? Float64.of_Z z0)%float = at0 ->
  (Float64.of_Z z0 <? x)%float = b0 ->
  (Float64.of_Z z1 <? x)%float = b1 ->
  (Float64.of_Z z2 <? x)%float = b2 ->
  (Float64.of_Z z3 <? x)%float = b3 ->
  (Float64.of_Z z4 <? x)%float = b4 ->
  pd.cut1 (map Float64.of_Z [z0; z1; z2; z3; z4]) labels true x =
  let ids :=
    if at0 then 1%nat
    else if nan then 5%nat
    else (Nat.b2n b0 + Nat.b2n b1 + Nat.b2n b2 + Nat.b2n b3 + Nat.b2n b4)%nat in
  if (nan || Nat.eqb ids 5 || Nat.eqb ids 0)%bool then None
  else nth_error labels (ids - 1).
Proof.
  intros <- <- <- <- <- <- <-.
  unfold pd.cut1, pd.searchsorted_left.
  cbn [map hd andb List.length filter].
  destruct (Float64.of_Z z0 <? x)%float, (Float64.of_Z z1 <? x)%float,
    (Float64.of_Z z2 <? x)%float, (Float64.of_Z z3 <? x)%float,
    (Float64.of_Z z4 <? x)%float; reflexivity.
Qed.

Ltac interest_rate_bin x nan at0 b0 b1 b2 b3 b4 :=
  unfold AnalysisRow.interest_rate_category,
    feature_analysis.interest_rate_bins;
  rewrite (cut1_five_edges 0 8 12 16 25 _ x nan at0 b0 b1 b2 b3 b4);
  [reflexivity | float_order ..].

(** X22: [interest_rate_category] is Low on [[0,8]], Medium on [(8,12]],
    High on [(12,16]] and Very_High on [(16,25]]; a rate above 25 (or
    below 0, or a NaN) gets no category. *)
Theorem interest_rate_categories records i a :
  nth_error records i = Some a ->
  exists df category,
    feature_analysis.add_feature_engineering (DataFrame_of_records records)
      = Ok df /\
    pd.at_row df "interest_rate_category" i = Ok (pd.CCat category) /\
    let x := interest_rate a in
    ((0 <=? x)%float = true -> (x <=? 8)%float = true ->
     category = Some "Low") /\
    ((8 <? x)%float = true -> (x <=? 12)%float = true ->
     category = Some "Medium") /\
    ((12 <? x)%float = true -> (x <=? 16)%float = true ->
     category = Some "High") /\
    ((16 <? x)%float = true -> (x <=? 25)%float = true ->
     category = Some "Very_High") /\
    ((25 <? x)%float = true -> category = None) /\
    ((x <? 0)%float = true -> category = None) /\
    (PrimFloat.is_nan x = true -> category = None).
Proof.
  intros H.
  exists (analysis_frame records), (AnalysisRow.interest_rate_category a).
  split; [apply analysis_add_feature_engineering_records|].
  split.
  { rewrite (at_row_of_row _ _ _ _ (row_analysis_frame _ _ _ H)).
    reflexivity. }
  cbv zeta. repeat split; intros.
  - destruct (interest_rate a =? Float64.of_Z 0)%float eqn:E.
    + interest_rate_bin (interest_rate a) false true false false false false false.
    + interest_rate_bin (interest_rate a) false false true false false false false.
  - interest_rate_bin (interest_rate a) false false true true false false false.
  - interest_rate_bin (interest_rate a) false false true true true false false.
  - interest_rate_bin (interest_rate a) false false true true true true false.
  - interest_rate_bin (interest_rate a) false false true true true true true.
  - interest_rate_bin (interest_rate a) false false false false false false false.
  - interest_rate_bin (interest_rate a) true false false false false false false.
Qed.

(** * The response of [predict] and the entries of a batch *)

Section Responses.

Variable round : float -> Z -> float.
Variable format_f : nat -> float -> string.
Variable str : exn -> string.
Variable str_number : pd.cell -> string.
Variable model_info : list (string * json).

Local Abbreviation body := (predict_body round format_f str_number model_info).
Local Abbreviation serve := (predict round format_f str str_number).
Local Abbreviation serve_batch :=
  (batch_predict round format_f str str_number).
Local Abbreviation items := (outcomes round format_f str str_number).

Lemma predict_body_response m a r :
  body m a = Ok r ->
  exists p label performance,
    r = {| prediction :=
             {| default_probability := round p 4;
                default_probability_percent := format_f 2 (p * 100) ++ "%";
                binary_prediction := label;
                prediction_label :=
                  if label =? 1 then "Default" else "No Default" |};
           risk_assessment :=
             {| risk_level := fst (risk_classification p);
                risk_color := snd (risk_classification p);
                confidence := snd (recommendation_logic p label) |};
           recommendation :=
             {| decision := fst (recommendation_logic p label);
                reasoning :=
                  "Based on " ++ format_f 2 (p * 100)
                  ++ "% default probability and "
                  ++ lower (fst (risk_classification p)) ++ " risk level" |};
           feature_analysis :=
             {| income_to_loan_ratio := round (RowOf.income_to_loan_ratio a) 4;
                monthly_payment := round (RowOf.monthly_payment a) 2;
                payment_to_income_ratio :=
                  round (RowOf.payment_to_income_ratio a) 4;
                risk_score :=
                  RowOf.risk_score (median_interest_rate [a])
                    (median_num_open_acc [a]) a;
                credit_score_category :=
                  str_cell str_number (pd.CCat (RowOf.credit_score_binned a));
                risk_factors_of :=
                  {| employment_risk := employment_length a <? 2;
                     high_interest :=
                       (median_interest_rate [a] <? interest_rate a)%float;
                     young_borrower := age a <? 30;
                     multiple_delinquencies := 1 <? delinquency_2yrs a;
                     many_open_accounts :=
                       (median_num_open_acc [a]
                        <? Float64.of_Z (num_open_acc a))%float |} |};
           model_info_of :=
             {| model_type :=
                  dict_get model_info "best_model" (JString "gradient_boost");
                model_performance := "ROC-AUC: " ++ performance;
                precision := "88.24%" |} |}.
Proof.
  unfold predict_body. rewrite add_feature_engineering_records.
  cbn [bind].
  destruct (Model.predict_proba m (engineered [a])) as [proba|];
    cbn [bind]; [|discriminate].
  destruct (index proba 0) as [pred_proba|]; cbn [bind]; [|discriminate].
  destruct (index pred_proba 1) as [p|]; cbn [bind]; [|discriminate].
  destruct (Model.predict m (engineered [a])) as [labels|];
    cbn [bind]; [|discriminate].
  destruct (index labels 0) as [label|]; cbn [bind]; [|discriminate].
  destruct (risk_classification p) as [level color] eqn:E6.
  destruct (recommendation_logic p label) as [reco conf] eqn:E7.
  rewrite !(at_row_engineered [a] 0 a _ eq_refl).
  cbn [find fst snd String.eqb Ascii.eqb Bool.eqb RowOf.cells bind py_float
       py_int].
  destruct (format_3f _ _) as [performance|]; cbn [bind]; [|discriminate].
  intros H. injection H as <-. exists p, label, performance.
  rewrite E6, E7. cbn [fst snd py_bool].
  unfold RowOf.employment_risk, RowOf.high_interest, RowOf.young_borrower,
    RowOf.multiple_delinquencies, RowOf.many_open_accounts.
  repeat match goal with
  | |- context [negb (b2z ?b =? 0)] =>
      replace (negb (b2z b =? 0)) with b by (destruct b; reflexivity)
  end.
  reflexivity.
Qed.

Lemma append_assoc_string (s1 s2 s3 : string) :
  ((s1 ++ s2) ++ s3 = s1 ++ (s2 ++ s3))%string.
Proof. induction s1 as [|c s1 IH]; cbn; [|rewrite IH]; reflexivity. Qed.

(** X23: the parts of a response agree with each other: the label reads
    Default exactly when the prediction is 1, which is exactly when the
    decision is Reject; the colour is the one of the level; the reasoning
    quotes the reported percentage and the lower-cased level; and
    [risk_score] is the number of risk factors reported as true. *)
Theorem response_consistent model a r :
  serve model model_info a = Ok r ->
  (prediction_label (prediction r) = "Default"
   <-> binary_prediction (prediction r) = 1) /\
  (decision (recommendation r) = "Reject"
   <-> binary_prediction (prediction r) = 1) /\
  In (risk_level (risk_assessment r), risk_color (risk_assessment r))
    [("Very High", "red"); ("High", "orange"); ("Medium", "yellow");
     ("Low", "lightgreen"); ("Very Low", "green")] /\
  reasoning (recommendation r)
    = "Based on " ++ default_probability_percent (prediction r)
      ++ " default probability and "
      ++ lower (risk_level (risk_assessment r)) ++ " risk level" /\
  let f := risk_factors_of (feature_analysis r) in
  risk_score (feature_analysis r)
    = b2z (employment_risk f) + b2z (high_interest f)
      + b2z (young_borrower f) + b2z (multiple_delinquencies f)
      + b2z (many_open_accounts f).
Proof.
  intros H.
  destruct (predict_Ok _ _ _ _ _ _ _ _ H) as (m & _ & B).
  destruct (predict_body_response _ _ _ B) as (p & label & perf & ->).
  cbn [prediction recommendation risk_assessment feature_analysis
       prediction_label binary_prediction decision risk_level risk_color
       reasoning default_probability_percent risk_score risk_factors_of
       employment_risk high_interest young_borrower multiple_delinquencies
       many_open_accounts].
  split; [|split; [|split; [|split]]].
  - destruct (Z.eqb_spec label 1); split; intros; try discriminate;
      try contradiction; auto.
  - unfold recommendation_logic.
    destruct (Z.eqb_spec label 1); cbn [fst]; split; intros; auto;
      try contradiction.
    destruct (p <? 0.1)%float; [discriminate|].
    destruct (p <? 0.3)%float; discriminate.
  - unfold risk_classification.
    destruct (0.8 <=? p)%float; [cbn; tauto|].
    destruct (0.6 <=? p)%float; [cbn; tauto|].
    destruct (0.4 <=? p)%float; [cbn; tauto|].
    destruct (0.2 <=? p)%float; cbn; tauto.
  - rewrite !append_assoc_string. reflexivity.
  - reflexivity.
Qed.

Lemma outcomes_app model apps more : forall i,
  items model model_info i (apps ++ more)
  = (items model model_info i apps
     ++ items model model_info (i + List.length apps) more)%list.
Proof.
  induction apps as [|a rest IH]; intros i; cbn [app outcomes List.length].
  - rewrite Nat.add_0_r. reflexivity.
  - rewrite IH. replace (S i + List.length rest)%nat
      with (i + S (List.length rest))%nat by lia. reflexivity.
Qed.

Lemma outcomes_length model apps : forall i,
  List.length (items model model_info i apps) = List.length apps.
Proof.
  induction apps as [|a rest IH]; intros i; cbn; [|rewrite IH]; reflexivity.
Qed.

(** X24: applications added at the end of a batch change none of the
    entries before them: the entries of a batch are the entries of each
    of its prefixes, followed by one entry per further application. *)
Theorem batch_prefix_stable model apps more resp :
  serve_batch model model_info (apps ++ more) = Ok resp ->
  exists resp0,
    serve_batch model model_info apps = Ok resp0 /\
    firstn (List.length apps) (results resp) = results resp0 /\
    List.length (results resp)
      = (List.length (results resp0) + List.length more)%nat.
Proof.
  unfold batch_predict. destruct model as [m|]; [|discriminate].
  destruct (100 <? Z.of_nat (List.length (apps ++ more))) eqn:L;
    [discriminate|].
  apply Z.ltb_ge in L. rewrite length_app in L.
  destruct (100 <? Z.of_nat (List.length apps)) eqn:L0;
    [apply Z.ltb_lt in L0; lia|].
  cbn [try_except]. intros H. injection H as <-.
  eexists. split; [reflexivity|]. cbn [results].
  rewrite !(batch_loop_outcomes round format_f str str_number). cbn [app].
  rewrite outcomes_app. split.
  - rewrite <- (outcomes_length (Some m) apps 0) at 1.
    rewrite firstn_app, Nat.sub_diag, firstn_all, firstn_O, app_nil_r.
    reflexivity.
  - rewrite length_app, !outcomes_length. reflexivity.
Qed.

End Responses.

(** * The further properties on the fixtures *)



Lemma summary_counts_applications_witness :
  exists resp,
    Fixtures.serve_batch (Some (Fixtures.toy_model 0.7 1)) Fixtures.mixed_batch
      = Ok resp /\
    successful_predictions (summary resp) = 2 /\
    errors (summary resp) = 1 /\
    0 <= high_risk_count (summary resp) <= successful_predictions (summary resp).
Proof.
  destruct (Fixtures.serve_batch (Some (Fixtures.toy_model 0.7 1))
              Fixtures.mixed_batch) as [resp|e] eqn:E;
    [|vm_compute in E; discriminate].
  exists resp. split; [reflexivity|].
  destruct (summary_counts_applications Fixtures.no_round Fixtures.no_format
              Fixtures.message Fixtures.no_str _ _ _ _ E)
    as (S & R & _ & B & _).
  split; [rewrite S; vm_compute; reflexivity|].
  split; [rewrite R; vm_compute; reflexivity|]. exact B.
Defined.

Lemma summary_permutation_invariant_witness :
  Permutation [Fixtures.low_risk_app; Fixtures.zero_loan_app]
    [Fixtures.zero_loan_app; Fixtures.low_risk_app] /\
  exists resp resp',
    Fixtures.serve_batch (Some (Fixtures.toy_model 0.7 1))
      [Fixtures.low_risk_app; Fixtures.zero_loan_app] = Ok resp /\
    Fixtures.serve_batch (Some (Fixtures.toy_model 0.7 1))
      [Fixtures.zero_loan_app; Fixtures.low_risk_app] = Ok resp' /\
    summary resp = summary resp'.
Proof.
  assert (P : Permutation [Fixtures.low_risk_app; Fixtures.zero_loan_app]
                [Fixtures.zero_loan_app; Fixtures.low_risk_app])
    by apply perm_swap.
  split; [exact P|].
  destruct (Fixtures.serve_batch (Some (Fixtures.toy_model 0.7 1))
              [Fixtures.low_risk_app; Fixtures.zero_loan_app])
    as [resp|e] eqn:E; [|vm_compute in E; discriminate].
  destruct (Fixtures.serve_batch (Some (Fixtures.toy_model 0.7 1))
              [Fixtures.zero_loan_app; Fixtures.low_risk_app])
    as [resp'|e] eqn:E'; [|vm_compute in E'; discriminate].
  exists resp, resp'. split; [reflexivity|]. split; [reflexivity|].
  exact (summary_permutation_invariant Fixtures.no_round Fixtures.no_format
           Fixtures.message Fixtures.no_str _ _ _ _ _ _ P E E').
Defined.

Lemma fallback_model_info_fails_predictions_witness :
  load_model (Ok (Fixtures.lenient_model 0.05 0))
    (Raise (ValueError "No such file")) 
    = (Some (Fixtures.lenient_model 0.05 0), Fixtures.fallback_info) /\
  exists e,
    Fixtures.serve_info Fixtures.fallback_info
      (Some (Fixtures.lenient_model 0.05 0)) Fixtures.low_risk_app
    = Raise (HTTPException 400 ("Prediction error: " ++ Fixtures.message e)).
Proof.
  assert (L : load_model (Ok (Fixtures.lenient_model 0.05 0))
                (Raise (ValueError "No such file"))
              = (Some (Fixtures.lenient_model 0.05 0), Fixtures.fallback_info))
    by reflexivity.
  split; [exact L|].
  destruct (fallback_model_info_fails_predictions Fixtures.no_round
              Fixtures.no_format Fixtures.message Fixtures.no_str _ _ _ _ L)
    as [F _].
  exact (F Fixtures.low_risk_app).
Defined.

Lemma health_reflects_startup_witness :
  load_model (Ok (Fixtures.lenient_model 0.05 0)) (Ok JNotObject)
    = (None, []) /\
  HealthResponse.model_loaded (health "exported_model_tuned" None []) = false /\
  Fixtures.serve None Fixtures.low_risk_app = Raise not_loaded.
Proof.
  assert (L : load_model (Ok (Fixtures.lenient_model 0.05 0)) (Ok JNotObject)
              = (None, [])) by reflexivity.
  split; [exact L|]. split; [reflexivity|].
  destruct (health_reflects_startup Fixtures.no_round Fixtures.no_format
              Fixtures.message Fixtures.no_str "exported_model_tuned"
              _ _ _ _ L) as (_ & F & _).
  destruct (F eq_refl) as (_ & P & _). exact (P Fixtures.low_risk_app).
Defined.

Lemma basic_levels_against_enhanced_witness :
  fst (risk_classification 0.65) = "High" /\
  predict_api.risk_classification 0.65 = "Medium".
Proof.
  split; [reflexivity|].
  destruct (basic_levels_against_enhanced 0.65) as (_ & _ & _ & _ & H & _).
  exact (H eq_refl).
Defined.

Lemma services_agree_witness :
  exists r r',
    Fixtures.serve (Some (Fixtures.toy_model 0.15 1)) Fixtures.low_risk_app
      = Ok r /\
    predict_api.predict Fixtures.no_round Fixtures.message
      (Some (Fixtures.toy_model 0.15 1)) Fixtures.low_risk_app = Ok r' /\
    predict_api.binary_prediction r' = binary_prediction (prediction r).
Proof.
  destruct (Fixtures.serve (Some (Fixtures.toy_model 0.15 1))
              Fixtures.low_risk_app) as [r|e] eqn:E;
    [|vm_compute in E; discriminate].
  destruct (services_agree Fixtures.no_round Fixtures.no_format
              Fixtures.message Fixtures.no_str [] _ _ _ E)
    as (r' & B & _ & L & _).
  exists r, r'. split; [reflexivity|]. split; assumption.
Defined.

Lemma best_model_first_maximum_witness :
  advanced_train.best_model_report Fixtures.trained_models
    = advanced_train.Best "random_forest" 0.94 /\
  (0 <? 0.94)%float = true /\
  In ("gradient_boost", 0.94%float) Fixtures.trained_models /\
  (0.94 <? 0.94)%float = false.
Proof.
  pose proof (best_model_first_maximum Fixtures.trained_models) as H.
  change (advanced_train.best_model_report Fixtures.trained_models)
    with (advanced_train.Best "random_forest" 0.94) in H.
  destruct H as (P & before & after & _ & _ & A).
  assert (I : In ("gradient_boost", 0.94%float) Fixtures.trained_models)
    by (cbn; tauto).
  split; [reflexivity|]. split; [exact P|]. split; [exact I|].
  exact (A _ _ I).
Defined.

Lemma interest_rate_categories_witness :
  nth_error [Fixtures.applicant 20000 36 29.9 800 40] 0
    = Some (Fixtures.applicant 20000 36 29.9 800 40) /\
  (25 <? interest_rate (Fixtures.applicant 20000 36 29.9 800 40))%float
    = true /\
  exists df,
    feature_analysis.add_feature_engineering
      (DataFrame_of_records [Fixtures.applicant 20000 36 29.9 800 40])
      = Ok df /\
    pd.at_row df "interest_rate_category" 0 = Ok (pd.CCat None).
Proof.
  split; [reflexivity|]. split; [reflexivity|].
  destruct (interest_rate_categories
              [Fixtures.applicant 20000 36 29.9 800 40] 0 _ eq_refl)
    as (df & category & E & A & _ & _ & _ & _ & H & _).
  exists df. split; [exact E|]. rewrite A, (H eq_refl). reflexivity.
Defined.

Lemma response_consistent_witness :
  exists r,
    Fixtures.serve (Some (Fixtures.toy_model 0.7 1)) Fixtures.low_risk_app
      = Ok r /\
    (decision (recommendation r) = "Reject"
     <-> binary_prediction (prediction r) = 1) /\
    reasoning (recommendation r)
      = "Based on ?% default probability and high risk level".
Proof.
  destruct (Fixtures.serve (Some (Fixtures.toy_model 0.7 1))
              Fixtures.low_risk_app) as [r|e] eqn:E;
    [|vm_compute in E; discriminate].
  exists r. split; [reflexivity|].
  destruct (response_consistent Fixtures.no_round Fixtures.no_format
              Fixtures.message Fixtures.no_str [] _ _ _ E)
    as (_ & D & _ & R & _).
  split; [exact D|]. rewrite R.
  vm_compute in E. injection E as <-. reflexivity.
Defined.

Lemma batch_prefix_stable_witness :
  exists resp resp0,
    Fixtures.serve_batch (Some (Fixtures.toy_model 0.7 1))
      ([Fixtures.low_risk_app]
       ++ [Fixtures.zero_loan_app; Fixtures.low_risk_app]) = Ok resp /\
    Fixtures.serve_batch (Some (Fixtures.toy_model 0.7 1))
      [Fixtures.low_risk_app] = Ok resp0 /\
    firstn 1 (results resp) = results resp0 /\
    List.length (results resp) = 3%nat.
Proof.
  destruct (Fixtures.serve_batch (Some (Fixtures.toy_model 0.7 1))
              ([Fixtures.low_risk_app]
               ++ [Fixtures.zero_loan_app; Fixtures.low_risk_app]))
    as [resp|e] eqn:E; [|vm_compute in E; discriminate].
  destruct (batch_prefix_stable Fixtures.no_round Fixtures.no_format
              Fixtures.message Fixtures.no_str [] _ _ _ _ E)
    as (resp0 & E0 & P & L).
  exists resp, resp0. split; [reflexivity|]. split; [exact E0|].
  split; [exact P|]. rewrite L.
  unfold Fixtures.serve_batch in E0. vm_compute in E0. injection E0 as <-.
  reflexivity.
Defined.
